(** * Digital elevation map builder (PCL stereo): histogram engine and grid construction

    A shallow embedding of [stereo/src/digital_elevation_map.cpp]:
    the [FeatureHistogram] class and [DigitalElevationMapBuilder::compute].

    Machine model: [float] is IEEE-754 binary32 with round-to-nearest-even,
    every operation rounded on its own; [unsigned] is 32 bits and [size_t]
    is 64 bits, both wrapping; an out-of-range [operator[]], a float to
    integer conversion whose value does not fit, an integer division by
    zero and a thrown exception are all "no normal return" ([None]). *)

From Stdlib Require Import ZArith Bool Lia.
From Stdlib Require Import Floats.SpecFloat.
From stdpp Require Import base option list.

Local Open Scope Z_scope.

(** ** Unsigned machine integers *)

Definition wrap32 (z : Z) : Z := z mod 2 ^ 32.
Definition wrap64 (z : Z) : Z := z mod 2 ^ 64.

(** A value that a [size_t] variable can hold. *)
Definition size_t_ok (z : Z) : Prop := 0 <= z < 2 ^ 64.

(** ** IEEE-754 binary32 *)

Module F32.

Definition prec : Z := 24.
Definition emax : Z := 128.

Definition float : Type := spec_float.

Definition add : float -> float -> float := SFadd prec emax.
Definition sub : float -> float -> float := SFsub prec emax.
Definition mul : float -> float -> float := SFmul prec emax.
Definition div : float -> float -> float := SFdiv prec emax.
Definition ltb : float -> float -> bool := SFltb.
Definition leb : float -> float -> bool := SFleb.
Definition eqb : float -> float -> bool := SFeqb.

(** [static_cast<float> (n)] for an unsigned integer [n]. *)
Definition of_Z (n : Z) : float := binary_normalize prec emax n 0 false.

(** [static_cast<size_t> (x)]: truncation toward zero; the conversion is
    undefined when the truncated value is not a [size_t]. *)
Definition to_size_t (x : float) : option Z :=
  match x with
  | S754_zero _ => Some 0
  | S754_finite s m e =>
      let t := Z.shiftl (Z.pos m) e in
      if s then (if t =? 0 then Some 0 else None)
      else if t <? 2 ^ 64 then Some t else None
  | S754_infinity _ | S754_nan => None
  end.

Definition zero : float := S754_zero false.
Definition one : float := S754_finite false 8388608 (-23).
Definition minus_one : float := S754_finite true 8388608 (-23).
Definition nan : float := S754_nan.
(** [FLT_MAX] *)
Definition max_float : float := S754_finite false 16777215 104.

(** Neither negative nor a negative infinity: the sign bit is clear, or the
    value is a zero or a NaN. *)
Definition nonneg (x : float) : Prop :=
  match x with
  | S754_zero _ | S754_nan => True
  | S754_infinity s | S754_finite s _ _ => s = false
  end.

Definition is_nan (x : float) : bool :=
  match x with S754_nan => true | _ => false end.

(** Finite: a zero or a finite non-zero number. *)
Definition is_finite (x : float) : bool :=
  match x with S754_zero _ | S754_finite _ _ _ => true | _ => false end.

(** The sign bit is clear (a NaN has none). *)
Definition sign_clear (x : float) : Prop :=
  match x with
  | S754_nan => True
  | S754_zero s | S754_infinity s | S754_finite s _ _ => s = false
  end.

End F32.

Abbreviation float := F32.float.

(** ** FeatureHistogram *)

Inductive diagnostic : Type :=
| ErrThresholdOrder      (* "Variable max must be greater then min." *)
| ErrImageNotAllocated.  (* "Memory for the image was not allocated." *)

Record FeatureHistogram : Type := mkFeatureHistogram {
  histogram_ : list Z;           (* std::vector <unsigned> *)
  threshold_min_ : float;
  threshold_max_ : float;
  step_ : float;
  number_of_elements_ : Z;       (* size_t *)
  number_of_bins_ : Z            (* size_t *)
}.

(** [FeatureHistogram::FeatureHistogram (size_t number_of_bins)] *)
Definition new_FeatureHistogram (number_of_bins : Z) : FeatureHistogram :=
  {| histogram_ := replicate (Z.to_nat number_of_bins) 0;
     threshold_min_ := F32.zero;
     threshold_max_ := F32.of_Z number_of_bins;
     step_ := F32.one;
     number_of_elements_ := 0;
     number_of_bins_ := number_of_bins |}.

(** [FeatureHistogram::setThresholds]: the new state and what was logged. *)
Definition setThresholds (h : FeatureHistogram) (min max : float)
  : FeatureHistogram * list diagnostic :=
  if F32.ltb min max then
    ({| histogram_ := histogram_ h;
        threshold_min_ := min;
        threshold_max_ := max;
        step_ := F32.div (F32.sub max min) (F32.of_Z (number_of_bins_ h));
        number_of_elements_ := number_of_elements_ h;
        number_of_bins_ := number_of_bins_ h |}, [])
  else (h, [ErrThresholdOrder]).

Definition getThresholdMin (h : FeatureHistogram) : float := threshold_min_ h.
Definition getThresholdMax (h : FeatureHistogram) : float := threshold_max_ h.
Definition getNumberOfElements (h : FeatureHistogram) : Z := number_of_elements_ h.
Definition getNumberOfBins (h : FeatureHistogram) : Z := number_of_bins_ h.

(** The bin index computed by [addValue]:
    [static_cast<size_t> ((value - threshold_min_) / step_)]. *)
Definition bin_number_of (h : FeatureHistogram) (value : float) : option Z :=
  F32.to_size_t (F32.div (F32.sub value (threshold_min_ h)) (step_ h)).

(** [FeatureHistogram::addValue]; [None] when the bin index cannot be
    computed or lies outside the vector. *)
Definition addValue (h : FeatureHistogram) (value : float) : option FeatureHistogram :=
  if F32.ltb (threshold_min_ h) value && F32.ltb value (threshold_max_ h) then
    let n := wrap64 (number_of_elements_ h + 1) in
    bin_number ← bin_number_of h value;
    c ← histogram_ h !! Z.to_nat bin_number;
    Some {| histogram_ := <[Z.to_nat bin_number := wrap32 (c + 1)]> (histogram_ h);
            threshold_min_ := threshold_min_ h;
            threshold_max_ := threshold_max_ h;
            step_ := step_ h;
            number_of_elements_ := n;
            number_of_bins_ := number_of_bins_ h |}
  else Some h.

(** [std::max_element]: the scan keeps the first largest element. *)
Fixpoint max_element_from (largest : nat) (largest_value : Z) (i : nat) (l : list Z) : nat :=
  match l with
  | [] => largest
  | x :: l' =>
      if largest_value <? x then max_element_from i x (S i) l'
      else max_element_from largest largest_value (S i) l'
  end.

(** Index of the iterator returned by [std::max_element (begin, end)];
    on an empty range it returns [end], which is [begin]. *)
Definition max_element (l : list Z) : nat :=
  match l with
  | [] => 0%nat
  | x :: l' => max_element_from 0 x 1 l'
  end.

(** Value a bin stands for: [step_ * static_cast<float> (bin) + threshold_min_]. *)
Definition bin_value (h : FeatureHistogram) (bin : Z) : float :=
  F32.add (F32.mul (step_ h) (F32.of_Z bin)) (threshold_min_ h).

(** [FeatureHistogram::meanValue] *)
Definition meanValue (h : FeatureHistogram) : float :=
  let max_index := Z.of_nat (max_element (histogram_ h)) in
  bin_value h max_index.

(** One turn of the loop of [variance]. *)
Definition variance_step (h : FeatureHistogram) (mean : float)
    (variances_sum : float) (bin : Z) : option float :=
  c ← histogram_ h !! Z.to_nat bin;
  if 0 <? c then
    let value := bin_value h bin in
    let dif := F32.sub (F32.mul (F32.of_Z c) value) mean in
    Some (F32.add variances_sum (F32.mul dif dif))
  else Some variances_sum.

(** [for (i = 0; i < n; ++i) body] over a state, stopping at the first
    turn that does not return. *)
Definition for_range {S : Type} (n : Z) (body : Z -> S -> option S) (s : S) : option S :=
  foldl (fun acc i => acc ≫= body i) (Some s) (seqZ 0 n).

(** [FeatureHistogram::variance] *)
Definition variance (h : FeatureHistogram) (mean : float) : option float :=
  if number_of_elements_ h =? 0 then Some F32.minus_one
  else
    variances_sum ← for_range (number_of_bins_ h)
                       (fun bin acc => variance_step h mean acc bin) F32.zero;
    Some (F32.div variances_sum (F32.of_Z (number_of_elements_ h))).

(** ** Point types and clouds *)

(** Modelled from the spec: a 3D point, as the coordinate transform returns it. *)
Module PointXYZ.
Record t : Type := mk { x : float; y : float; z : float }.
End PointXYZ.

(** Modelled from the spec: a pixel of the "3-channel integer" color image. *)
Module RGB.
(** Three 8-bit channels; the sum below is taken after integer promotion. *)
Record t : Type := mk { r : Z; g : Z; b : Z }.
End RGB.

(** Modelled from the spec: the output grid cell, with x, z, y, intensity and the
    two variance fields. *)
Module PointDEM.
Record t : Type := mk {
  x : float; y : float; z : float;
  intensity : float;
  intensity_variance : float;
  height_variance : float
}.
End PointDEM.

(** Modelled from the spec: a cloud is a width, a height and its points, row
    after row. *)
Record PointCloud (PointT : Type) : Type := mkPointCloud {
  width : Z;
  height : Z;
  points : list PointT
}.
Arguments mkPointCloud {PointT} _ _ _.
Arguments width {PointT} _.
Arguments height {PointT} _.
Arguments points {PointT} _.

(** Modelled from the spec: the output container, whose class is declared
    outside this unit, is "a 2D grid (width = resolution_column, height =
    resolution_disparity) of DEM cells, addressable by (column_index,
    disparity_index)"; cells are stored row after row, and an address
    outside the grid does not return. *)
Definition cloud_index {PointT : Type} (c : PointCloud PointT) (column row : Z) : option nat :=
  if (0 <=? column) && (column <? width c) && (0 <=? row) && (row <? height c)
  then Some (Z.to_nat (row * width c + column)) else None.

(** Modelled from the spec: reading the cell at [(column, row)]. *)
Definition cloud_at {PointT : Type} (c : PointCloud PointT) (column row : Z) : option PointT :=
  i ← cloud_index c column row; points c !! i.

(** Modelled from the spec: writing the cell at [(column, row)], as
    [out_cloud->at (column, row) = p] does. *)
Definition cloud_at_put {PointT : Type} (c : PointCloud PointT) (column row : Z) (p : PointT)
  : option (PointCloud PointT) :=
  i ← cloud_index c column row;
  _ ← points c !! i;
  Some (mkPointCloud (width c) (height c) (<[i := p]> (points c))).

(** ** DigitalElevationMapBuilder *)

(** Modelled from the spec: the members inherited from the disparity map
    converter that [compute] reads (disparity buffer and its dimensions, the
    acceptance window, the image). *)
Record DisparityMapConverter : Type := mkDisparityMapConverter {
  disparity_map_ : list float;
  disparity_map_width_ : Z;          (* size_t *)
  disparity_map_height_ : Z;         (* size_t *)
  disparity_threshold_min_ : float;
  disparity_threshold_max_ : float;
  image_ : option (PointCloud RGB.t) (* shared pointer, null when no image was set *)
}.

Record DigitalElevationMapBuilder : Type := mkDigitalElevationMapBuilder {
  base : DisparityMapConverter;
  resolution_column_ : Z;            (* size_t *)
  resolution_disparity_ : Z;         (* size_t *)
  min_points_in_cell_ : Z            (* size_t *)
}.

(** [DigitalElevationMapBuilder::DigitalElevationMapBuilder ()] *)
Definition new_DigitalElevationMapBuilder (base : DisparityMapConverter)
  : DigitalElevationMapBuilder :=
  {| base := base;
     resolution_column_ := 64;
     resolution_disparity_ := 32;
     min_points_in_cell_ := 1 |}.

Definition setResolution (b : DigitalElevationMapBuilder)
    (resolution_column resolution_disparity : Z) : DigitalElevationMapBuilder :=
  {| base := base b;
     resolution_column_ := resolution_column;
     resolution_disparity_ := resolution_disparity;
     min_points_in_cell_ := min_points_in_cell_ b |}.

Definition setMinPointsInCell (b : DigitalElevationMapBuilder) (min_points_in_cell : Z)
  : DigitalElevationMapBuilder :=
  {| base := base b;
     resolution_column_ := resolution_column_ b;
     resolution_disparity_ := resolution_disparity_ b;
     min_points_in_cell_ := min_points_in_cell |}.

(** Unsigned division; dividing by zero does not return. *)
Definition size_t_div (a b : Z) : option Z :=
  if b =? 0 then None else Some (a / b).

Definition kHeightMin : float := S754_finite true 8388608 (-24).       (* -0.5f *)
Definition kHeightMax : float := S754_finite false 12582912 (-23).     (* 1.5f *)
Definition kHeightResolution : float := S754_finite false 10737418 (-30). (* 0.01f *)
Definition kIntensityMin : float := S754_zero false.                   (* 0.0f *)
Definition kIntensityMax : float := S754_finite false 16711680 (-16).  (* 255.0f *)
Definition kIntensityBins : Z := 256.

Definition histograms : Type := (list FeatureHistogram * list FeatureHistogram)%type.

(** The height histogram [compute] builds: 200 bins over (-0.5, 1.5). *)
Definition height_prototype : FeatureHistogram :=
  (setThresholds (new_FeatureHistogram 200) kHeightMin kHeightMax).1.

(** The intensity histogram [compute] builds: 256 bins over (0, 255). *)
Definition intensity_prototype : FeatureHistogram :=
  (setThresholds (new_FeatureHistogram kIntensityBins) kIntensityMin kIntensityMax).1.

(** The histogram tables at the start of the accumulation pass. *)
Definition initial_histograms (b : DigitalElevationMapBuilder) : histograms :=
  let kNumberOfHistograms := wrap64 (resolution_column_ b * resolution_disparity_ b) in
  (replicate (Z.to_nat kNumberOfHistograms) height_prototype,
   replicate (Z.to_nat kNumberOfHistograms) intensity_prototype).

(** The flat index of the cell [(ic, id)], as both passes compute it. *)
Definition cell_index (b : DigitalElevationMapBuilder) (ic id : Z) : nat :=
  Z.to_nat (wrap64 (ic + id * resolution_column_ b)).

Section Compute.

(** The coordinate transform of the stereo geometry module,
    [translateCoordinates (row, column, disparity)]. *)
Variable translateCoordinates : Z -> Z -> float -> PointXYZ.t.
(** A default-constructed output point, as [resize] creates them. *)
Variable default_PointDEM : PointDEM.t.

Definition kColumnStep_of (b : DigitalElevationMapBuilder) : option Z :=
  q ← size_t_div (wrap64 (disparity_map_width_ (base b) - 1)) (resolution_column_ b);
  Some (wrap64 (q + 1)).

Definition kDisparityStep_of (b : DigitalElevationMapBuilder) : float :=
  F32.div (F32.sub (disparity_threshold_max_ (base b)) (disparity_threshold_min_ (base b)))
          (F32.of_Z (resolution_disparity_ b)).

(** The flat histogram index of an accepted pixel. *)
Definition pixel_index (b : DigitalElevationMapBuilder) (kColumnStep : Z)
    (kDisparityStep : float) (column : Z) (disparity : float) : option Z :=
  index_column ← size_t_div column kColumnStep;
  index_disparity ← F32.to_size_t
    (F32.div (F32.sub disparity (disparity_threshold_min_ (base b))) kDisparityStep);
  Some (wrap64 (index_column + index_disparity * resolution_column_ b)).

(** Body of the two accumulation loops, for the pixel at [(column, row)]. *)
Definition accumulate_pixel (b : DigitalElevationMapBuilder) (img : PointCloud RGB.t)
    (kColumnStep : Z) (kDisparityStep : float) (column row : Z) (hs : histograms)
  : option histograms :=
  let pixel := Z.to_nat (wrap64 (column + row * disparity_map_width_ (base b))) in
  disparity ← disparity_map_ (base b) !! pixel;
  if F32.ltb (disparity_threshold_min_ (base b)) disparity
     && F32.ltb disparity (disparity_threshold_max_ (base b)) then
    let point_3D := translateCoordinates row column disparity in
    let height := PointXYZ.y point_3D in
    point_RGB ← points img !! pixel;
    let intensity :=
      F32.of_Z (Z.quot (RGB.r point_RGB + RGB.g point_RGB + RGB.b point_RGB) 3) in
    index ← pixel_index b kColumnStep kDisparityStep column disparity;
    hh ← hs.1 !! Z.to_nat index;
    hh' ← addValue hh height;
    ih ← hs.2 !! Z.to_nat index;
    ih' ← addValue ih intensity;
    Some (<[Z.to_nat index := hh']> (hs.1), <[Z.to_nat index := ih']> (hs.2))
  else Some hs.

(** The accumulation pass: columns outside, rows inside. *)
Definition accumulate (b : DigitalElevationMapBuilder) (img : PointCloud RGB.t)
    (kColumnStep : Z) (kDisparityStep : float) (hs : histograms) : option histograms :=
  for_range (disparity_map_width_ (base b))
    (fun column =>
       for_range (disparity_map_height_ (base b))
         (fun row => accumulate_pixel b img kColumnStep kDisparityStep column row))
    hs.

(** The DEM cell computed for [(index_column, index_disparity)]. *)
Definition dem_cell (b : DigitalElevationMapBuilder) (kColumnStep : Z)
    (kDisparityStep : float) (hs : histograms) (index_column index_disparity : Z)
  : option PointDEM.t :=
  let index := Z.to_nat (wrap64 (index_column + index_disparity * resolution_column_ b)) in
  let column := wrap64 (index_column * kColumnStep) in
  let disparity :=
    F32.add (disparity_threshold_min_ (base b))
            (F32.mul (F32.of_Z index_disparity) kDisparityStep) in
  let point_3D := translateCoordinates 0 column disparity in
  hh ← hs.1 !! index;
  if min_points_in_cell_ b <=? getNumberOfElements hh then
    let y := meanValue hh in
    height_variance ← variance hh y;
    ih ← hs.2 !! index;
    let intensity := meanValue ih in
    intensity_variance ← variance ih intensity;
    Some (PointDEM.mk (PointXYZ.x point_3D) y (PointXYZ.z point_3D)
            intensity intensity_variance height_variance)
  else
    Some (PointDEM.mk (PointXYZ.x point_3D) F32.zero (PointXYZ.z point_3D)
            kIntensityMax F32.minus_one F32.minus_one).

(** Body of the two reduction loops, for the cell at
    [(index_column, index_disparity)]. *)
Definition reduce_body (b : DigitalElevationMapBuilder) (kColumnStep : Z)
    (kDisparityStep : float) (hs : histograms) (index_column index_disparity : Z)
    (cloud : PointCloud PointDEM.t) : option (PointCloud PointDEM.t) :=
  point_DEM ← dem_cell b kColumnStep kDisparityStep hs index_column index_disparity;
  cloud_at_put cloud index_column index_disparity point_DEM.

(** The reduction pass: columns outside, disparity buckets inside. *)
Definition reduce (b : DigitalElevationMapBuilder) (kColumnStep : Z)
    (kDisparityStep : float) (hs : histograms) (out_cloud : PointCloud PointDEM.t)
  : option (PointCloud PointDEM.t) :=
  for_range (resolution_column_ b)
    (fun index_column =>
       for_range (resolution_disparity_ b)
         (reduce_body b kColumnStep kDisparityStep hs index_column))
    out_cloud.

(** The cloud [compute] allocates before anything else. *)
Definition fresh_cloud (b : DigitalElevationMapBuilder) : PointCloud PointDEM.t :=
  mkPointCloud (resolution_column_ b) (resolution_disparity_ b)
    (replicate (Z.to_nat (resolution_column_ b * resolution_disparity_ b)) default_PointDEM).

(** The cell written when the height histogram has too few samples. *)
Definition invalid_cell (b : DigitalElevationMapBuilder) (ks : Z) (ds : float)
    (ic id : Z) : PointDEM.t :=
  let point_3D :=
    translateCoordinates 0 (wrap64 (ic * ks))
      (F32.add (disparity_threshold_min_ (base b)) (F32.mul (F32.of_Z id) ds)) in
  PointDEM.mk (PointXYZ.x point_3D) F32.zero (PointXYZ.z point_3D)
    kIntensityMax F32.minus_one F32.minus_one.

(** The grid holds at [(ic, id)] the cell computed for it. *)
Definition filled (b : DigitalElevationMapBuilder) (ks : Z) (ds : float) (hs : histograms)
    (cloud : PointCloud PointDEM.t) (ic id : Z) : Prop :=
  exists p, dem_cell b ks ds hs ic id = Some p /\ cloud_at cloud ic id = Some p.

(** Loop invariant of the reduction pass, at column [ic] and bucket [id]. *)
Definition reduce_inv (b : DigitalElevationMapBuilder) (ks : Z) (ds : float)
    (hs : histograms) (n : nat) (ic id : Z) (cloud : PointCloud PointDEM.t) : Prop :=
  width cloud = resolution_column_ b
  /\ height cloud = resolution_disparity_ b
  /\ length (points cloud) = n
  /\ (forall ic' id', 0 <= ic' < ic -> 0 <= id' < resolution_disparity_ b ->
        filled b ks ds hs cloud ic' id')
  /\ (forall id', 0 <= id' < id -> filled b ks ds hs cloud ic id').

(** The two prototype histograms and what configuring them logged. *)
Definition height_histogram_example : option (FeatureHistogram * list diagnostic) :=
  kHeightBins ← F32.to_size_t
    (F32.div (F32.sub kHeightMax kHeightMin) kHeightResolution);
  Some (setThresholds (new_FeatureHistogram kHeightBins) kHeightMin kHeightMax).

Definition intensity_histogram_example : FeatureHistogram * list diagnostic :=
  setThresholds (new_FeatureHistogram kIntensityBins) kIntensityMin kIntensityMax.

(** [DigitalElevationMapBuilder::compute (out_cloud)]: the new value of the
    pointer passed by reference and the diagnostics, when the call returns. *)
Definition compute (b : DigitalElevationMapBuilder)
    (out_cloud : option (PointCloud PointDEM.t))
  : option (option (PointCloud PointDEM.t) * list diagnostic) :=
  let out_cloud := fresh_cloud b in
  kColumnStep ← kColumnStep_of b;
  let kDisparityStep := kDisparityStep_of b in
  let kNumberOfHistograms := wrap64 (resolution_column_ b * resolution_disparity_ b) in
  '(height_example, log_h) ← height_histogram_example;
  let '(intensity_example, log_i) := intensity_histogram_example in
  let height_histograms := replicate (Z.to_nat kNumberOfHistograms) height_example in
  let intensity_histograms := replicate (Z.to_nat kNumberOfHistograms) intensity_example in
  match image_ (base b) with
  | None => Some (Some out_cloud, log_h ++ log_i ++ [ErrImageNotAllocated])
  | Some img =>
      hs ← accumulate b img kColumnStep kDisparityStep
             (height_histograms, intensity_histograms);
      cloud ← reduce b kColumnStep kDisparityStep hs out_cloud;
      Some (Some cloud, log_h ++ log_i)
  end.

End Compute.

(** ** Specification-side definitions *)

Definition sum_bins (l : list Z) : Z := foldr Z.add 0 l.

(** Histograms that construction, [setThresholds] and returning calls of
    [addValue] can produce; the index counts the calls of [addValue]. *)
Inductive reachable : Z -> FeatureHistogram -> Prop :=
| reach_new (number_of_bins : Z) :
    size_t_ok number_of_bins -> reachable 0 (new_FeatureHistogram number_of_bins)
| reach_setThresholds (k : Z) (h : FeatureHistogram) (min max : float) :
    reachable k h -> reachable k (setThresholds h min max).1
| reach_addValue (k : Z) (h h' : FeatureHistogram) (value : float) :
    reachable k h -> addValue h value = Some h' -> reachable (k + 1) h'.

(** What the members of a histogram object satisfy by their types and by
    the constructor: one counter per bin, counters and count in range. *)
Record wf_hist (h : FeatureHistogram) : Prop := mk_wf_hist {
  wf_length : length (histogram_ h) = Z.to_nat (number_of_bins_ h);
  wf_bins : Forall (fun c => 0 <= c < 2 ^ 32) (histogram_ h);
  wf_count : size_t_ok (number_of_elements_ h);
  wf_number_of_bins : size_t_ok (number_of_bins_ h)
}.

(** Both tables keep their length and their histograms stay well formed. *)
Definition tables_ok (n : nat) (hs : histograms) : Prop :=
  length hs.1 = n /\ length hs.2 = n /\ Forall wf_hist hs.1 /\ Forall wf_hist hs.2.

(** The spread measure as the specification words it: over every non-empty
    bin, in bin order, the squared difference between count times bin value
    and the mean, summed and divided by the element count. *)
Definition variance_terms (h : FeatureHistogram) (mean : float) (bins : list Z) : list float :=
  omap (fun '(bin, c) =>
          if c =? 0 then None
          else
            let dif := F32.sub (F32.mul (F32.of_Z c) (bin_value h bin)) mean in
            Some (F32.mul dif dif))
       (imap (fun i c => (Z.of_nat i, c)) bins).

Definition variance_spec (h : FeatureHistogram) (mean : float) : float :=
  F32.div (foldl F32.add F32.zero (variance_terms h mean (histogram_ h)))
          (F32.of_Z (number_of_elements_ h)).

(** [k] is the lowest index among the bins with the maximal count. *)
Definition first_max_bin (l : list Z) (k : nat) : Prop :=
  exists v, l !! k = Some v
    /\ (forall j w, l !! j = Some w -> w <= v)
    /\ (forall j w, (j < k)%nat -> l !! j = Some w -> w < v).

(** The counting invariant behind C4. *)
Record counted (k : Z) (h : FeatureHistogram) : Prop := mk_counted {
  counted_calls : 0 <= k;
  counted_mod : sum_bins (histogram_ h) mod 2 ^ 32 = number_of_elements_ h mod 2 ^ 32;
  counted_exact : k < 2 ^ 32 ->
    sum_bins (histogram_ h) = number_of_elements_ h /\ number_of_elements_ h <= k
}.

(** Same thresholds, bin width and number of counters as [p]. *)
Definition same_config (h p : FeatureHistogram) : Prop :=
  threshold_min_ h = threshold_min_ p
  /\ threshold_max_ h = threshold_max_ p
  /\ step_ h = step_ p
  /\ length (histogram_ h) = length (histogram_ p).

(** Every bin value of [p] lies in [[min, max)]. *)
Definition bins_in_range (p : FeatureHistogram) : bool :=
  forallb (fun k => F32.leb (threshold_min_ p) (bin_value p k)
                    && F32.ltb (bin_value p k) (threshold_max_ p))
          (seqZ 0 (Z.of_nat (length (histogram_ p)))).

(** ** Concrete histograms and builders *)

(** A histogram with one bin over (0, 1) that accepted [k] values. *)
Definition half : float := S754_finite false 8388608 (-24).

Definition one_bin (k : Z) : FeatureHistogram :=
  mkFeatureHistogram [wrap32 k] F32.zero F32.one F32.one (wrap64 k) 1.

(** The largest float below 1.5, [0x3FBFFFFF]. *)
Definition below_kHeightMax : float := S754_finite false 12582911 (-23).

(** One bin over (-FLT_MAX, FLT_MAX): the range overflows and the bin width
    is infinite. *)
Definition wide_histogram : FeatureHistogram :=
  (setThresholds (new_FeatureHistogram 1) (SFopp F32.max_float) F32.max_float).1.

Definition wide_histogram_1 : FeatureHistogram :=
  mkFeatureHistogram [1] (SFopp F32.max_float) F32.max_float (S754_infinity false) 1 1.

(** Four unit bins with one value, 3.5, in the last one ... *)
Definition four_bins_1 : FeatureHistogram :=
  mkFeatureHistogram [0; 0; 0; 1] F32.zero (S754_finite false 8388608 (-21)) F32.one 1 4.

(** ... then given the thresholds 2^24 and 2^24 + 2, two neighbouring floats. *)
Definition narrow_histogram : FeatureHistogram :=
  mkFeatureHistogram [0; 0; 0; 1] (S754_finite false 8388608 1)
    (S754_finite false 8388609 1) half 1 4.

(** A stand-in for the stereo geometry: x is the column, every point is at
    height 0.5, z is the disparity. *)
Definition example_translate (row column : Z) (disparity : float) : PointXYZ.t :=
  PointXYZ.mk (F32.of_Z column) half disparity.

Definition example_default : PointDEM.t :=
  PointDEM.mk F32.zero F32.zero F32.zero F32.zero F32.zero F32.zero.

Definition four : float := S754_finite false 8388608 (-21).

Definition gray_image : PointCloud RGB.t := mkPointCloud 4 4 (replicate 16 (RGB.mk 10 20 30)).
Definition black_image : PointCloud RGB.t := mkPointCloud 4 4 (replicate 16 (RGB.mk 0 0 0)).

(** A 4 x 4 disparity map filled with one value, window (0, 4), grid 2 x 1. *)
Definition example_builder (disparity : float) (image : option (PointCloud RGB.t))
  : DigitalElevationMapBuilder :=
  setResolution
    (new_DigitalElevationMapBuilder
       (mkDisparityMapConverter (replicate 16 disparity) 4 4 F32.zero four image))
    2 1.

(** The builder as constructed, 64 x 32, with no image attached. *)
Definition builder_without_image : DigitalElevationMapBuilder :=
  new_DigitalElevationMapBuilder
    (mkDisparityMapConverter (replicate 16 F32.one) 4 4 F32.zero four None).

Definition run (b : DigitalElevationMapBuilder)
  : option (option (PointCloud PointDEM.t) * list diagnostic) :=
  compute example_translate example_default b None.

(** The grid computed from sixteen pixels of disparity 1.0 over a gray image. *)
Definition gray_cloud : PointCloud PointDEM.t :=
  Eval vm_compute in
    match run (example_builder F32.one (Some gray_image)) with
    | Some (Some cloud, _) => cloud
    | _ => mkPointCloud 0 0 []
    end.

(** The histograms after the accumulation pass of a run. *)
Definition accumulated (b : DigitalElevationMapBuilder) (img : PointCloud RGB.t)
  : option histograms :=
  ks ← kColumnStep_of b;
  accumulate example_translate b img ks (kDisparityStep_of b) (initial_histograms b).

(** One pixel whose disparity is the largest float below 1.0, [0x3F7FFFFF];
    window (0, 1), grid 1 x 100. *)
Definition below_one : float := S754_finite false 16777215 (-24).

Definition one_pixel_image : PointCloud RGB.t := mkPointCloud 1 1 [RGB.mk 10 20 30].

Definition fine_builder : DigitalElevationMapBuilder :=
  setResolution
    (new_DigitalElevationMapBuilder
       (mkDisparityMapConverter [below_one] 1 1 F32.zero F32.one (Some one_pixel_image)))
    1 100.

(** ** Further members and named parts of the code *)

(** [DigitalElevationMapBuilder::getColumnResolution] *)
Definition getColumnResolution (b : DigitalElevationMapBuilder) : Z := resolution_column_ b.

(** [DigitalElevationMapBuilder::getDisparityResolution] *)
Definition getDisparityResolution (b : DigitalElevationMapBuilder) : Z :=
  resolution_disparity_ b.

(** [DigitalElevationMapBuilder::getMinPointsInCell] *)
Definition getMinPointsInCell (b : DigitalElevationMapBuilder) : Z := min_points_in_cell_ b.

(** The range test of [addValue]: [threshold_min_ < value && value < threshold_max_]. *)
Definition accepts (h : FeatureHistogram) (value : float) : bool :=
  F32.ltb (threshold_min_ h) value && F32.ltb value (threshold_max_ h).

(** The histogram after [++number_of_elements_] and [++histogram_[bin]],
    where the bin held [c]. *)
Definition bumped (h : FeatureHistogram) (bin c : Z) : FeatureHistogram :=
  mkFeatureHistogram
    (<[Z.to_nat bin := wrap32 (c + 1)]> (histogram_ h))
    (threshold_min_ h) (threshold_max_ h) (step_ h)
    (wrap64 (number_of_elements_ h + 1)) (number_of_bins_ h).

(** The window test of the accumulation loop. *)
Definition in_window (b : DigitalElevationMapBuilder) (disparity : float) : bool :=
  F32.ltb (disparity_threshold_min_ (base b)) disparity
  && F32.ltb disparity (disparity_threshold_max_ (base b)).

(** The intensity of a pixel: [static_cast<float> ((r + g + b) / 3)]. *)
Definition pixel_intensity (point_RGB : RGB.t) : float :=
  F32.of_Z (Z.quot (RGB.r point_RGB + RGB.g point_RGB + RGB.b point_RGB) 3).

(** The channels of a pixel are 8-bit values. *)
Definition rgb_ok (point_RGB : RGB.t) : Prop :=
  0 <= RGB.r point_RGB <= 255 /\ 0 <= RGB.g point_RGB <= 255
  /\ 0 <= RGB.b point_RGB <= 255.

(** The point the reduction pass transforms for the cell [(ic, id)]:
    row 0, column [ic * kColumnStep], disparity [min + id * kDisparityStep]. *)
Definition cell_point (translateCoordinates : Z -> Z -> float -> PointXYZ.t)
    (b : DigitalElevationMapBuilder) (ks : Z) (ds : float) (ic id : Z) : PointXYZ.t :=
  translateCoordinates 0 (wrap64 (ic * ks))
    (F32.add (disparity_threshold_min_ (base b)) (F32.mul (F32.of_Z id) ds)).

(** For a histogram configured as [p]: the gray level [v] is accepted
    exactly when [0 < v < 255], and then its bin is [v]. *)
Definition gray_level_ok (p : FeatureHistogram) (v : Z) : bool :=
  if (0 <? v) && (v <? 255) then
    accepts p (F32.of_Z v)
    && match bin_number_of p (F32.of_Z v) with Some k => k =? v | None => false end
  else negb (accepts p (F32.of_Z v)).

(** The state of the thresholds of a histogram: as constructed, or as set. *)
Definition range_as_constructed (h : FeatureHistogram) : Prop :=
  threshold_min_ h = F32.zero
  /\ threshold_max_ h = F32.of_Z (number_of_bins_ h)
  /\ step_ h = F32.one.

Definition range_as_set (h : FeatureHistogram) : Prop :=
  F32.ltb (threshold_min_ h) (threshold_max_ h) = true
  /\ step_ h = F32.div (F32.sub (threshold_max_ h) (threshold_min_ h))
                       (F32.of_Z (number_of_bins_ h)).

(** Every histogram of the two tables is configured as its prototype. *)
Definition tables_config (hs : histograms) : Prop :=
  Forall (fun h => same_config h height_prototype) hs.1
  /\ Forall (fun h => same_config h intensity_prototype) hs.2.

(** A variance field holds the sentinel -1.0 or a value that is not below zero. *)
Definition sentinel_or_not_negative (v : float) : Prop :=
  v = F32.minus_one \/ F32.ltb v F32.zero = false.

(** A fresh histogram of three bins over (0, 3), and the value 1.5. *)
Definition three_bins : FeatureHistogram := new_FeatureHistogram 3.

Definition one_and_a_half : float := S754_finite false 12582912 (-23).

(** The height histogram of [compute] takes [height] without leaving its
    vector: the value is dropped, or its bin index is below 200. *)
Definition height_safe (height : float) : bool :=
  negb (accepts height_prototype height)
  || match bin_number_of height_prototype height with
     | Some bin => bin <? 200
     | None => false
     end.

Definition rgb_okb (point_RGB : RGB.t) : bool :=
  (0 <=? RGB.r point_RGB) && (RGB.r point_RGB <=? 255)
  && (0 <=? RGB.g point_RGB) && (RGB.g point_RGB <=? 255)
  && (0 <=? RGB.b point_RGB) && (RGB.b point_RGB <=? 255).

(** The pixel at [(column, row)] can be processed: its disparity can be
    read and, when it passes the window test, the image has the pixel, the
    disparity bucket is below [resolution_disparity] and the height is safe. *)
Definition pixel_safe (translateCoordinates : Z -> Z -> float -> PointXYZ.t)
    (b : DigitalElevationMapBuilder) (img : PointCloud RGB.t) (column row : Z) : bool :=
  let pixel := Z.to_nat (wrap64 (column + row * disparity_map_width_ (base b))) in
  match disparity_map_ (base b) !! pixel with
  | None => false
  | Some d =>
      negb (in_window b d)
      || match points img !! pixel with
         | None => false
         | Some point_RGB =>
             rgb_okb point_RGB
             && match F32.to_size_t
                        (F32.div (F32.sub d (disparity_threshold_min_ (base b)))
                                 (F32.div (F32.sub (disparity_threshold_max_ (base b))
                                                   (disparity_threshold_min_ (base b)))
                                          (F32.of_Z (resolution_disparity_ b)))) with
                | Some index_disparity => index_disparity <? resolution_disparity_ b
                | None => false
                end
             && height_safe (PointXYZ.y (translateCoordinates row column d))
         end
  end.

(** Every pixel of the map can be processed. *)
Definition map_safe (translateCoordinates : Z -> Z -> float -> PointXYZ.t)
    (b : DigitalElevationMapBuilder) (img : PointCloud RGB.t) : bool :=
  forallb
    (fun column =>
       forallb (fun row => pixel_safe translateCoordinates b img column row)
         (seqZ 0 (disparity_map_height_ (base b))))
    (seqZ 0 (disparity_map_width_ (base b))).

(** Every pixel of the map can be read and fails the window test. *)
Definition no_pixel_in_window (b : DigitalElevationMapBuilder) : bool :=
  forallb
    (fun column =>
       forallb
         (fun row =>
            match disparity_map_ (base b)
                    !! Z.to_nat (wrap64 (column + row * disparity_map_width_ (base b))) with
            | Some d => negb (in_window b d)
            | None => false
            end)
         (seqZ 0 (disparity_map_height_ (base b))))
    (seqZ 0 (disparity_map_width_ (base b))).

(** The sixteen-pixel run over the gray image: its builder, the tables after
    the first pixel and after the whole accumulation pass. *)
Definition gray_builder : DigitalElevationMapBuilder :=
  example_builder F32.one (Some gray_image).

Definition gray_first_step : histograms :=
  Eval vm_compute in
    match accumulate_pixel example_translate gray_builder gray_image 2
            (kDisparityStep_of gray_builder) 0 0 (initial_histograms gray_builder) with
    | Some hs => hs
    | None => ([], [])
    end.

Definition gray_tables : histograms :=
  Eval vm_compute in
    match accumulated gray_builder gray_image with
    | Some hs => hs
    | None => ([], [])
    end.

(** A transform that puts every point at height 2.0, above the range of
    the height histogram, and the gray run with [min_points_in_cell] = 0. *)
Definition tall_translate (row column : Z) (disparity : float) : PointXYZ.t :=
  PointXYZ.mk (F32.of_Z column) (S754_finite false 8388608 (-22)) disparity.

Definition no_minimum_builder : DigitalElevationMapBuilder :=
  setMinPointsInCell gray_builder 0.

(** ** Binary32 facts *)

Module F32Facts.
Import F32.

(** The constants of this development are binary32 numbers. *)
Lemma constants_valid :
  forallb (valid_binary prec emax)
    [one; minus_one; max_float; kHeightMin; kHeightMax; kHeightResolution;
     kIntensityMax; half; four; below_kHeightMax; below_one] = true.
Proof. reflexivity. Qed.

(** The literals are the floats nearest to their decimal values. *)
Lemma literals :
  kHeightMin = SFopp (div (of_Z 1) (of_Z 2))
  /\ kHeightMax = div (of_Z 3) (of_Z 2)
  /\ kHeightResolution = div (of_Z 1) (of_Z 100)
  /\ kIntensityMax = of_Z 255
  /\ one = of_Z 1 /\ minus_one = SFopp (of_Z 1).
Proof. vm_compute. repeat split; reflexivity. Qed.

Lemma sign_clear_nonneg x : sign_clear x -> nonneg x.
Proof. destruct x; simpl; auto. Qed.

Lemma binary_round_aux_sign s m e l :
  let r := binary_round_aux prec emax s m e l in
  r = S754_nan \/ r = S754_zero s \/ r = S754_infinity s
  \/ exists m' e', r = S754_finite s m' e'.
Proof.
  unfold binary_round_aux.
  destruct (shr_fexp prec emax m e l) as [mrs' e'].
  destruct (shr_fexp prec emax _ e' loc_Exact) as [mrs'' e''].
  destruct (shr_m mrs'') as [|p|p]; auto.
  destruct (e'' <=? emax - prec)%Z; eauto 6.
Qed.

Lemma binary_round_aux_clear m e l :
  sign_clear (binary_round_aux prec emax false m e l).
Proof.
  destruct (binary_round_aux_sign false m e l) as [H|[H|[H|(m' & e' & H)]]];
    rewrite H; simpl; auto.
Qed.

Lemma binary_round_clear m e : sign_clear (binary_round prec emax false m e).
Proof.
  unfold binary_round. destruct (shl_align _ _ _) as [mz ez].
  apply binary_round_aux_clear.
Qed.

Lemma of_Z_clear n : 0 <= n -> sign_clear (of_Z n).
Proof.
  intros Hn. unfold of_Z, binary_normalize.
  destruct n as [|p|p]; simpl; auto; [apply binary_round_clear | lia].
Qed.

Lemma mul_self_clear x : sign_clear (mul x x).
Proof.
  destruct x as [s|s| |s m e]; simpl; auto using xorb_nilpotent.
  unfold mul; simpl. rewrite xorb_nilpotent. apply binary_round_aux_clear.
Qed.

Lemma add_nonneg x y : nonneg x -> nonneg y -> nonneg (add x y).
Proof.
  destruct x as [sx|sx| |sx mx ex], y as [sy|sy| |sy my ey]; simpl; intros Hx Hy;
    subst; simpl; auto.
  - destruct sx, sy; simpl; auto.
  - apply sign_clear_nonneg. unfold add, SFadd, binary_normalize, cond_Zopp.
    simpl. apply binary_round_clear.
Qed.

Lemma div_nonneg x y : nonneg x -> sign_clear y -> nonneg (div x y).
Proof.
  destruct x as [sx|sx| |sx mx ex], y as [sy|sy| |sy my ey]; simpl; intros Hx Hy;
    subst; simpl; auto.
  apply sign_clear_nonneg. unfold div, SFdiv.
  destruct (SFdiv_core_binary _ _ _ _ _ _) as [[mz ez] lz].
  apply binary_round_aux_clear.
Qed.

Lemma nonneg_not_eqb_minus_one x : nonneg x -> eqb x minus_one = false.
Proof. destruct x as [s|s| |s m e]; simpl; intros H; subst; reflexivity. Qed.

Lemma nonneg_not_lt_zero x : nonneg x -> ltb x zero = false.
Proof. destruct x as [s|s| |s m e]; simpl; intros H; subst; reflexivity. Qed.

Lemma nonneg_nan_or_ge x : nonneg x -> is_nan x = true \/ leb zero x = true.
Proof. destruct x as [s|s| |s m e]; simpl; intros H; subst; auto. Qed.

(** Comparison is antisymmetric. *)
Lemma SFcompare_antisym x y : SFcompare y x = CompOpp <$> SFcompare x y.
Proof.
  destruct x as [sx|sx| |sx mx ex], y as [sy|sy| |sy my ey]; simpl;
    try reflexivity; try (destruct sx; reflexivity); try (destruct sy; reflexivity);
    try (destruct sx, sy; reflexivity).
  assert (Hm : Pos.compare_cont Eq my mx = CompOpp (Pos.compare_cont Eq mx my))
    by (symmetry; apply (Pos.compare_cont_antisym mx my Eq)).
  destruct sx, sy; simpl; try reflexivity; f_equal;
    rewrite (Z.compare_antisym ex ey), Hm;
    destruct (ex ?= ey)%Z; simpl; try reflexivity;
    destruct (Pos.compare_cont Eq mx my); reflexivity.
Qed.

Lemma leb_not_ltb x y : leb x y = true -> ltb y x = false.
Proof.
  unfold leb, ltb, SFleb, SFltb. rewrite (SFcompare_antisym x y).
  destruct (SFcompare x y) as [[]|]; simpl; congruence.
Qed.

(** Multiplying a finite number by the float of the integer 0 gives a zero,
    and adding a zero to a number that is not NaN gives a number equal to it. *)
Lemma mul_finite_zero x : is_finite x = true -> exists s, mul x (of_Z 0) = S754_zero s.
Proof. destruct x as [s|s| |s m e]; simpl; intros; try discriminate; eauto. Qed.

Lemma add_zero_l s x : is_nan x = false -> eqb (add (S754_zero s) x) x = true.
Proof.
  destruct x as [sx|sx| |sx m e]; simpl; intros; try discriminate.
  - destruct s, sx; reflexivity.
  - destruct sx; reflexivity.
  - unfold eqb, SFeqb; simpl. destruct sx; rewrite Z.compare_refl;
      rewrite ?Pos.compare_cont_refl; reflexivity.
Qed.

End F32Facts.

(** ** Loops *)

Section ForRange.
Context {S : Type}.
Implicit Types (body : Z -> S -> option S) (s : S).

Lemma for_range_nil n body s : n <= 0 -> for_range n body s = Some s.
Proof. intros Hn. unfold for_range. rewrite seqZ_nil by lia. reflexivity. Qed.

Lemma for_range_succ n body s :
  0 <= n -> for_range (n + 1) body s = for_range n body s ≫= body n.
Proof.
  intros Hn. unfold for_range.
  rewrite seqZ_app by lia. rewrite foldl_app.
  rewrite (seqZ_cons (0 + n) 1) by lia. rewrite (seqZ_nil _ (Z.pred 1)) by lia.
  simpl. rewrite Z.add_0_l. reflexivity.
Qed.

(** A loop whose every turn returns and keeps the invariant returns, with
    the invariant at the bound. *)
Lemma for_range_total (I : Z -> S -> Prop) n body s :
  0 <= n -> I 0 s ->
  (forall i t, 0 <= i < n -> I i t -> exists t', body i t = Some t' /\ I (i + 1) t') ->
  exists t, for_range n body s = Some t /\ I n t.
Proof.
  intros Hn H0 Hstep. revert Hstep. pattern n.
  apply natlike_ind; [| |exact Hn].
  - intros _. exists s. split; [apply for_range_nil; lia|exact H0].
  - intros k Hk IH Hstep.
    destruct IH as (t & Ht & HI); [intros i u Hi; apply Hstep; lia|].
    destruct (Hstep k t ltac:(lia) HI) as (t' & Ht' & HI').
    exists t'. split; [|exact HI'].
    change (Z.succ k) with (k + 1). rewrite for_range_succ by lia.
    rewrite Ht. exact Ht'.
Qed.

(** A loop that returned kept every invariant its turns keep. *)
Lemma for_range_partial (I : Z -> S -> Prop) n body s t :
  0 <= n -> I 0 s ->
  (forall i u u', 0 <= i < n -> I i u -> body i u = Some u' -> I (i + 1) u') ->
  for_range n body s = Some t -> I n t.
Proof.
  intros Hn H0. revert t. pattern n.
  apply natlike_ind; [| |exact Hn].
  - intros t _ Ht. rewrite for_range_nil in Ht by lia. congruence.
  - intros k Hk IH t Hstep Ht.
    change (Z.succ k) with (k + 1) in Ht. rewrite for_range_succ in Ht by lia.
    destruct (for_range k body s) as [u|] eqn:Hu; [|discriminate].
    simpl in Ht. apply (Hstep k u t); [lia| |exact Ht].
    apply IH; [|reflexivity]. intros i v v' Hi. apply Hstep. lia.
Qed.

End ForRange.

(** ** The first largest bin *)

Lemma max_element_from_spec (l pre : list Z) (a : nat) (v : Z) :
  pre !! a = Some v ->
  (forall j w, pre !! j = Some w -> w <= v) ->
  (forall j w, (j < a)%nat -> pre !! j = Some w -> w < v) ->
  first_max_bin (pre ++ l) (max_element_from a v (length pre) l).
Proof.
  revert pre a v. induction l as [|x l IH]; intros pre a v Ha Hle Hlt; simpl.
  - rewrite app_nil_r. exists v. auto.
  - replace (Datatypes.S (length pre)) with (length (pre ++ [x]))
      by (rewrite length_app; simpl; lia).
    rewrite (cons_middle x pre l), app_assoc.
    destruct (v <? x) eqn:Hvx.
    + apply Z.ltb_lt in Hvx. apply IH.
      * rewrite lookup_app_r by lia. rewrite Nat.sub_diag. reflexivity.
      * intros j w Hj. apply lookup_snoc_Some in Hj as [[_ Hj]|[_ ->]]; [|lia].
        specialize (Hle j w Hj). lia.
      * intros j w Hja Hj. apply lookup_snoc_Some in Hj as [[_ Hj]|[Hj' _]]; [|lia].
        specialize (Hle j w Hj). lia.
    + apply Z.ltb_ge in Hvx. apply IH.
      * rewrite lookup_app_l by (apply lookup_lt_Some in Ha; exact Ha). exact Ha.
      * intros j w Hj. apply lookup_snoc_Some in Hj as [[_ Hj]|[_ ->]]; [eauto|lia].
      * intros j w Hja Hj. apply lookup_snoc_Some in Hj as [[_ Hj]|[Hj' _]]; [eauto|].
        apply lookup_lt_Some in Ha. lia.
Qed.

Lemma max_element_spec (l : list Z) : l <> [] -> first_max_bin l (max_element l).
Proof.
  destruct l as [|x l]; [congruence|]. intros _. simpl.
  apply (max_element_from_spec l [x] 0 x); [reflexivity| |].
  - intros [|j] w Hj; simpl in Hj; [injection Hj as ->; lia|].
    rewrite lookup_nil in Hj. discriminate.
  - intros j w Hj. lia.
Qed.

Lemma first_max_bin_unique (l : list Z) (j k : nat) :
  first_max_bin l j -> first_max_bin l k -> j = k.
Proof.
  intros (v & Hv & Hle & Hlt) (w & Hw & Hle' & Hlt').
  destruct (Nat.lt_trichotomy j k) as [H|[H|H]]; [|exact H|].
  - specialize (Hlt' j v H Hv). specialize (Hle k w Hw). lia.
  - specialize (Hlt k w H Hw). specialize (Hle' j v Hv). lia.
Qed.

Lemma max_element_zeros (l : list Z) : Forall (fun c => c = 0) l -> max_element l = 0%nat.
Proof.
  destruct l as [|x l]; [reflexivity|]. intros Hl.
  apply (first_max_bin_unique (x :: l)); [apply max_element_spec; congruence|].
  exists x. split; [reflexivity|]. split; [|lia].
  intros j w Hj. rewrite Forall_lookup in Hl.
  rewrite (Hl j w Hj). rewrite (Hl 0%nat x); [lia|reflexivity].
Qed.

(** ** FeatureHistogram: thresholds and insertion *)

(** C3. [setThresholds (min, max)] with [min >= max] changes nothing (the
    thresholds read back and the bin width are those from before the call)
    and logs the error; with [min < max] it stores the range and sets the
    bin width to [(max - min) / number_of_bins]. *)
Theorem setThresholds_spec (h : FeatureHistogram) (min max : float) :
  (F32.leb max min = true ->
     (setThresholds h min max).1 = h
     /\ getThresholdMin (setThresholds h min max).1 = getThresholdMin h
     /\ getThresholdMax (setThresholds h min max).1 = getThresholdMax h
     /\ step_ (setThresholds h min max).1 = step_ h
     /\ (setThresholds h min max).2 = [ErrThresholdOrder])
  /\ (F32.ltb min max = true ->
     getThresholdMin (setThresholds h min max).1 = min
     /\ getThresholdMax (setThresholds h min max).1 = max
     /\ step_ (setThresholds h min max).1
        = F32.div (F32.sub max min) (F32.of_Z (getNumberOfBins h))
     /\ histogram_ (setThresholds h min max).1 = histogram_ h
     /\ getNumberOfElements (setThresholds h min max).1 = getNumberOfElements h
     /\ getNumberOfBins (setThresholds h min max).1 = getNumberOfBins h
     /\ (setThresholds h min max).2 = []).
Proof.
  unfold setThresholds. split.
  - intros Hge. apply F32Facts.leb_not_ltb in Hge. rewrite Hge. simpl. auto.
  - intros Hlt. rewrite Hlt. simpl. repeat split; reflexivity.
Qed.

Lemma setThresholds_spec_witness :
  let h := new_FeatureHistogram 4 in
  ((setThresholds h F32.one F32.zero).1 = h
   /\ getThresholdMin (setThresholds h F32.one F32.zero).1 = getThresholdMin h
   /\ getThresholdMax (setThresholds h F32.one F32.zero).1 = getThresholdMax h
   /\ step_ (setThresholds h F32.one F32.zero).1 = step_ h
   /\ (setThresholds h F32.one F32.zero).2 = [ErrThresholdOrder])
  /\ step_ (setThresholds h F32.zero F32.one).1
     = F32.div (F32.sub F32.one F32.zero) (F32.of_Z 4).
Proof.
  intros h. split.
  - apply (proj1 (setThresholds_spec h F32.one F32.zero)). reflexivity.
  - apply (proj2 (setThresholds_spec h F32.zero F32.one)). reflexivity.
Defined.

Lemma setThresholds_bins h min max :
  histogram_ (setThresholds h min max).1 = histogram_ h
  /\ number_of_elements_ (setThresholds h min max).1 = number_of_elements_ h
  /\ number_of_bins_ (setThresholds h min max).1 = number_of_bins_ h.
Proof. unfold setThresholds. destruct (F32.ltb min max); simpl; auto. Qed.

(** A value at or outside a threshold is dropped. *)
Lemma addValue_outside (h : FeatureHistogram) (value : float) :
  F32.leb value (threshold_min_ h) = true \/ F32.leb (threshold_max_ h) value = true ->
  addValue h value = Some h.
Proof.
  unfold addValue. intros [H|H]; apply F32Facts.leb_not_ltb in H; rewrite H;
    rewrite ?andb_false_r; reflexivity.
Qed.

(** A value strictly inside whose bin exists goes to that bin. *)
Lemma addValue_inside (h : FeatureHistogram) (value : float) (bin c : Z) :
  F32.ltb (threshold_min_ h) value = true ->
  F32.ltb value (threshold_max_ h) = true ->
  bin_number_of h value = Some bin ->
  histogram_ h !! Z.to_nat bin = Some c ->
  addValue h value =
    Some (mkFeatureHistogram
            (<[Z.to_nat bin := wrap32 (c + 1)]> (histogram_ h))
            (threshold_min_ h) (threshold_max_ h) (step_ h)
            (wrap64 (number_of_elements_ h + 1)) (number_of_bins_ h)).
Proof.
  intros H1 H2 Hb Hc. unfold addValue. rewrite H1, H2, Hb. simpl.
  rewrite Hc. reflexivity.
Qed.

(** What a returning [addValue] did. *)
Lemma addValue_Some (h h' : FeatureHistogram) (value : float) :
  addValue h value = Some h' ->
  h' = h
  \/ exists bin c,
       histogram_ h !! Z.to_nat bin = Some c
       /\ h' = mkFeatureHistogram
                 (<[Z.to_nat bin := wrap32 (c + 1)]> (histogram_ h))
                 (threshold_min_ h) (threshold_max_ h) (step_ h)
                 (wrap64 (number_of_elements_ h + 1)) (number_of_bins_ h).
Proof.
  unfold addValue.
  destruct (F32.ltb (threshold_min_ h) value && F32.ltb value (threshold_max_ h));
    [|intros [= <-]; auto].
  destruct (bin_number_of h value) as [bin|]; simpl; [|discriminate].
  destruct (histogram_ h !! Z.to_nat bin) as [c|] eqn:Hc; simpl; [|discriminate].
  intros [= <-]. right. eauto.
Qed.

Lemma height_histogram_example_eq :
  height_histogram_example = Some (height_prototype, []).
Proof. vm_compute. reflexivity. Qed.

Lemma intensity_histogram_example_eq :
  intensity_histogram_example = (intensity_prototype, []).
Proof. vm_compute. reflexivity. Qed.

(** C5 at its failing input. In the height histogram of [compute], the
    value just below the upper threshold lies strictly inside the range and
    its exact bin, the floor of [(value - min) * 200 / (max - min)]
    = 16777215 * 100 / 2^23, is 199. In binary32 the step is 0.01f, a little
    below 1/100, and the quotient [(value - min) / step], about 199.9999925,
    lies between the neighbouring floats 199.99998474 and 200.0 and rounds
    to 200.0: the bin index is the number of bins, the increment falls
    outside the vector and the call does not return normally. *)
Theorem addValue_bin_out_of_range :
  F32.ltb (getThresholdMin height_prototype) below_kHeightMax = true
  /\ F32.ltb below_kHeightMax (getThresholdMax height_prototype) = true
  /\ bin_number_of height_prototype below_kHeightMax = Some 200
  /\ 16777215 * 100 / 2 ^ 23 = 199
  /\ getNumberOfBins height_prototype = 200
  /\ length (histogram_ height_prototype) = 200%nat
  /\ addValue height_prototype below_kHeightMax = None.
Proof. vm_compute. repeat split; reflexivity. Qed.

(** ** FeatureHistogram: the counters *)

Lemma sum_bins_replicate_0 (n : nat) : sum_bins (replicate n 0) = 0.
Proof. induction n as [|n IH]; simpl; [reflexivity|exact IH]. Qed.

Lemma sum_bins_insert (l : list Z) (i : nat) (c x : Z) :
  l !! i = Some c -> sum_bins (<[i := x]> l) = sum_bins l - c + x.
Proof.
  revert i. induction l as [|y l IH]; intros [|i] Hi; simpl in *; try discriminate.
  - injection Hi as ->. lia.
  - rewrite (IH i Hi). lia.
Qed.

Lemma sum_bins_lookup_le (l : list Z) (i : nat) (c : Z) :
  Forall (fun c => 0 <= c) l -> l !! i = Some c -> c <= sum_bins l.
Proof.
  intros Hl. revert i. induction Hl as [|y l Hy Hl IH]; intros [|i] Hi; simpl in *;
    try discriminate.
  - injection Hi as ->. clear IH.
    assert (0 <= sum_bins l) by (induction Hl; simpl; lia). lia.
  - specialize (IH i Hi). lia.
Qed.

Lemma wrap32_range z : 0 <= wrap32 z < 2 ^ 32.
Proof. unfold wrap32. apply Z.mod_pos_bound. lia. Qed.

Lemma wrap64_range z : 0 <= wrap64 z < 2 ^ 64.
Proof. unfold wrap64. apply Z.mod_pos_bound. lia. Qed.

Lemma wrap64_small z : 0 <= z < 2 ^ 64 -> wrap64 z = z.
Proof. intros H. unfold wrap64. apply Z.mod_small. exact H. Qed.

Lemma wrap64_mod32 z : wrap64 z mod 2 ^ 32 = z mod 2 ^ 32.
Proof.
  unfold wrap64. apply Z.mod_mod_divide. exists (2 ^ 32). reflexivity.
Qed.

(** The members keep their types through every operation. *)
Lemma new_FeatureHistogram_wf (number_of_bins : Z) :
  size_t_ok number_of_bins -> wf_hist (new_FeatureHistogram number_of_bins).
Proof.
  intros Hn. split; simpl; try exact Hn.
  - apply length_replicate.
  - apply Forall_replicate. lia.
  - unfold size_t_ok. lia.
Qed.

Lemma setThresholds_wf h min max : wf_hist h -> wf_hist (setThresholds h min max).1.
Proof.
  intros [H1 H2 H3 H4]. destruct (setThresholds_bins h min max) as (E1 & E2 & E3).
  split; rewrite ?E1, ?E2, ?E3; assumption.
Qed.

Lemma addValue_wf h h' value : wf_hist h -> addValue h value = Some h' -> wf_hist h'.
Proof.
  intros [H1 H2 H3 H4] Hadd.
  apply addValue_Some in Hadd as [->|(bin & c & Hc & ->)]; [split; assumption|].
  split; simpl; try assumption.
  - rewrite length_insert. exact H1.
  - apply Forall_insert; [exact H2|apply wrap32_range].
  - apply wrap64_range.
Qed.

Lemma reachable_wf k h : reachable k h -> wf_hist h.
Proof.
  induction 1; eauto using new_FeatureHistogram_wf, setThresholds_wf, addValue_wf.
Qed.

Lemma reachable_counted k h : reachable k h -> counted k h.
Proof.
  induction 1 as [nb Hnb|k h min max Hr IH|k h h' value Hr IH Hadd].
  - split; simpl; rewrite ?sum_bins_replicate_0; try reflexivity; lia.
  - destruct IH as [I1 I2 I3]. destruct (setThresholds_bins h min max) as (E1 & E2 & _).
    split; rewrite ?E1, ?E2; assumption.
  - destruct IH as [I1 I2 I3]. pose proof (reachable_wf _ _ Hr) as [W1 W2 W3 W4].
    apply addValue_Some in Hadd as [->|(bin & c & Hc & ->)].
    + split; [lia|exact I2|]. intros Hk. destruct I3 as [I3 I4]; [lia|]. split; [exact I3|lia].
    + split; simpl; [lia| |].
      * rewrite (sum_bins_insert _ _ c _ Hc). rewrite wrap64_mod32. unfold wrap32.
        rewrite Zplus_mod_idemp_r.
        replace (sum_bins (histogram_ h) - c + (c + 1)) with (sum_bins (histogram_ h) + 1) by lia.
        rewrite <- (Zplus_mod_idemp_l (sum_bins _)), I2, Zplus_mod_idemp_l. reflexivity.
      * intros Hk. destruct I3 as [I3 I4]; [lia|].
        assert (Hcs : c <= sum_bins (histogram_ h)).
        { apply (sum_bins_lookup_le _ (Z.to_nat bin)); [|exact Hc].
          eapply Forall_impl; [exact W2|]. simpl. intros; lia. }
        assert (0 <= c) by (rewrite Forall_lookup in W2; apply (W2 _ _ Hc)).
        rewrite (sum_bins_insert _ _ c _ Hc).
        unfold wrap32. rewrite Z.mod_small by lia.
        destruct W3 as [W3 W3']. rewrite wrap64_small by lia. lia.
Qed.

(** C4, as the code has it. For every histogram reached by construction,
    [setThresholds] and fewer than 2^32 calls of [addValue], each of which
    returned normally (its value was dropped, or its bin index was defined
    and inside the vector), the sum of the bin counters equals [getNumberOfElements];
    after any number of such calls the two still agree modulo 2^32, the
    width of a bin counter. A call whose bin index is undefined or falls
    outside the vector (see C5) is not covered: nothing is said about the counters after it. *)
Theorem bins_sum_to_element_count (k : Z) (h : FeatureHistogram) :
  reachable k h ->
  sum_bins (histogram_ h) mod 2 ^ 32 = getNumberOfElements h mod 2 ^ 32
  /\ (k < 2 ^ 32 -> sum_bins (histogram_ h) = getNumberOfElements h).
Proof.
  intros Hr. destruct (reachable_counted k h Hr) as [I1 I2 I3].
  split; [exact I2|]. intros Hk. apply I3. exact Hk.
Qed.

Lemma one_bin_addValue (k : Z) : addValue (one_bin k) half = Some (one_bin (k + 1)).
Proof.
  rewrite (addValue_inside (one_bin k) half 0 (wrap32 k)); try reflexivity.
  unfold one_bin. simpl. do 2 f_equal.
  - unfold wrap32. rewrite Zplus_mod_idemp_l. reflexivity.
  - unfold wrap64. rewrite Zplus_mod_idemp_l. reflexivity.
Qed.

Lemma one_bin_reachable (k : Z) : 0 <= k -> reachable k (one_bin k).
Proof.
  intros Hk. pattern k. apply natlike_ind; [| |exact Hk].
  - change (one_bin 0) with (new_FeatureHistogram 1). apply reach_new.
    unfold size_t_ok. lia.
  - intros n Hn IH. change (Z.succ n) with (n + 1).
    apply (reach_addValue n (one_bin n) _ half IH). apply one_bin_addValue.
Qed.

(** After 2^32 insertions into its single bin the 32-bit counter is back at
    zero while the 64-bit element count is 2^32: C4 fails as stated. *)
Lemma bins_sum_counterexample :
  reachable (2 ^ 32) (one_bin (2 ^ 32))
  /\ sum_bins (histogram_ (one_bin (2 ^ 32))) = 0
  /\ getNumberOfElements (one_bin (2 ^ 32)) = 2 ^ 32
  /\ sum_bins (histogram_ (one_bin (2 ^ 32))) <> getNumberOfElements (one_bin (2 ^ 32)).
Proof.
  split; [apply one_bin_reachable; lia|]. vm_compute. repeat split; congruence.
Qed.

Lemma bins_sum_to_element_count_witness :
  sum_bins (histogram_ (one_bin 2)) mod 2 ^ 32 = getNumberOfElements (one_bin 2) mod 2 ^ 32
  /\ (2 < 2 ^ 32 -> sum_bins (histogram_ (one_bin 2)) = getNumberOfElements (one_bin 2)).
Proof.
  apply (bins_sum_to_element_count 2 (one_bin 2)).
  apply (reach_addValue 1 (one_bin 1) (one_bin 2) half); [|vm_compute; reflexivity].
  apply (reach_addValue 0 (one_bin 0) (one_bin 1) half); [|vm_compute; reflexivity].
  apply (reach_new 1). unfold size_t_ok. lia.
Defined.

(** ** FeatureHistogram: the mode *)

Lemma meanValue_first_max (h : FeatureHistogram) :
  histogram_ h <> [] ->
  first_max_bin (histogram_ h) (max_element (histogram_ h))
  /\ meanValue h = bin_value h (Z.of_nat (max_element (histogram_ h))).
Proof. intros Hne. split; [apply max_element_spec; exact Hne|reflexivity]. Qed.

Lemma bins_in_range_lookup (h p : FeatureHistogram) (k : nat) :
  bins_in_range p = true -> same_config h p -> (k < length (histogram_ h))%nat ->
  F32.leb (threshold_min_ h) (bin_value h (Z.of_nat k)) = true
  /\ F32.ltb (bin_value h (Z.of_nat k)) (threshold_max_ h) = true.
Proof.
  intros Hp (E1 & E2 & E3 & E4) Hk. unfold bins_in_range in Hp.
  rewrite forallb_forall in Hp. specialize (Hp (Z.of_nat k)).
  unfold bin_value in *. rewrite E1, E2, E3. apply andb_true_iff. apply Hp.
  apply list_elem_of_In, elem_of_seqZ. lia.
Qed.

Lemma height_prototype_in_range : bins_in_range height_prototype = true.
Proof. vm_compute. reflexivity. Qed.

Lemma intensity_prototype_in_range : bins_in_range intensity_prototype = true.
Proof. vm_compute. reflexivity. Qed.

Lemma reachable_has_bin k h :
  reachable k h -> number_of_elements_ h <> 0 -> histogram_ h <> [].
Proof.
  induction 1 as [nb Hnb|k h min max Hr IH|k h h' value Hr IH Hadd]; simpl.
  - congruence.
  - destruct (setThresholds_bins h min max) as (E1 & E2 & _). rewrite E1, E2. exact IH.
  - apply addValue_Some in Hadd as [->|(bin & c & Hc & ->)]; [exact IH|].
    simpl. intros _ Hnil. apply lookup_lt_Some in Hc.
    apply (f_equal length) in Hnil. rewrite length_insert in Hnil. simpl in Hnil. lia.
Qed.

(** C6, as the code has it. For every non-empty histogram [meanValue]
    returns [step * float (k) + threshold_min] with [k] the lowest index
    among the bins with the maximal count; for the two configurations
    [compute] builds (200 bins over (-0.5, 1.5), 256 bins over (0, 255)) this
    value lies in [[threshold_min, threshold_max)]. *)
Theorem meanValue_spec (n : Z) (h : FeatureHistogram) :
  reachable n h -> getNumberOfElements h <> 0 ->
  exists k : nat,
    first_max_bin (histogram_ h) k
    /\ meanValue h
       = F32.add (F32.mul (step_ h) (F32.of_Z (Z.of_nat k))) (getThresholdMin h)
    /\ (same_config h height_prototype \/ same_config h intensity_prototype ->
        F32.leb (getThresholdMin h) (meanValue h) = true
        /\ F32.ltb (meanValue h) (getThresholdMax h) = true).
Proof.
  intros Hr Hn. pose proof (reachable_has_bin n h Hr Hn) as Hne.
  destruct (meanValue_first_max h Hne) as [Hk Hm].
  exists (max_element (histogram_ h)). split; [exact Hk|]. split; [exact Hm|].
  assert (Hlt : (max_element (histogram_ h) < length (histogram_ h))%nat).
  { destruct Hk as (v & Hv & _). apply lookup_lt_Some in Hv. exact Hv. }
  rewrite Hm. unfold getThresholdMin, getThresholdMax.
  intros [Hc|Hc].
  - apply (bins_in_range_lookup h height_prototype);
      auto using height_prototype_in_range.
  - apply (bins_in_range_lookup h intensity_prototype);
      auto using intensity_prototype_in_range.
Qed.

Lemma meanValue_spec_witness :
  exists k : nat,
    first_max_bin (histogram_ (one_bin 1)) k
    /\ meanValue (one_bin 1)
       = F32.add (F32.mul (step_ (one_bin 1)) (F32.of_Z (Z.of_nat k)))
                 (getThresholdMin (one_bin 1))
    /\ (same_config (one_bin 1) height_prototype
        \/ same_config (one_bin 1) intensity_prototype ->
        F32.leb (getThresholdMin (one_bin 1)) (meanValue (one_bin 1)) = true
        /\ F32.ltb (meanValue (one_bin 1)) (getThresholdMax (one_bin 1)) = true).
Proof.
  apply (meanValue_spec 1 (one_bin 1)).
  - apply (reach_addValue 0 (one_bin 0) (one_bin 1) half); [|vm_compute; reflexivity].
    apply (reach_new 1). unfold size_t_ok. lia.
  - vm_compute. discriminate.
Defined.

Lemma wide_histogram_1_reachable : reachable 1 wide_histogram_1.
Proof.
  apply (reach_addValue 0 wide_histogram wide_histogram_1 F32.zero);
    [|vm_compute; reflexivity].
  apply (reach_setThresholds 0 (new_FeatureHistogram 1)).
  apply (reach_new 1). unfold size_t_ok. lia.
Qed.

Lemma narrow_histogram_reachable : reachable 1 narrow_histogram.
Proof.
  change narrow_histogram
    with (setThresholds four_bins_1 (S754_finite false 8388608 1)
            (S754_finite false 8388609 1)).1.
  apply reach_setThresholds.
  apply (reach_addValue 0 (new_FeatureHistogram 4) four_bins_1
           (S754_finite false 14680064 (-22))); [|vm_compute; reflexivity].
  apply (reach_new 4). unfold size_t_ok. lia.
Qed.

(** C6 fails as stated, in its range part. With thresholds -FLT_MAX and
    FLT_MAX the bin width is infinite, and after one insertion [meanValue]
    is [inf * 0 + min], a NaN. And with a finite bin width: four bins, the
    value 3.5 in the last one, then thresholds 2^24 and 2^24 + 2 give the bin
    width 0.5 and [meanValue] = 1.5 + 2^24 rounded, which is the upper
    threshold itself. Neither result is in [[threshold_min, threshold_max)]. *)
Lemma meanValue_counterexample :
  (reachable 1 wide_histogram_1
   /\ getNumberOfElements wide_histogram_1 = 1
   /\ meanValue wide_histogram_1 = F32.nan
   /\ F32.leb (getThresholdMin wide_histogram_1) (meanValue wide_histogram_1) = false
   /\ F32.ltb (meanValue wide_histogram_1) (getThresholdMax wide_histogram_1) = false)
  /\ (reachable 1 narrow_histogram
      /\ getNumberOfElements narrow_histogram = 1
      /\ F32.is_finite (step_ narrow_histogram) = true
      /\ meanValue narrow_histogram = getThresholdMax narrow_histogram
      /\ F32.ltb (meanValue narrow_histogram) (getThresholdMax narrow_histogram) = false).
Proof.
  split; (split; [auto using wide_histogram_1_reachable, narrow_histogram_reachable|]);
    vm_compute; repeat split; reflexivity.
Qed.

Lemma reachable_min_not_nan k h : reachable k h -> F32.is_nan (threshold_min_ h) = false.
Proof.
  induction 1 as [nb Hnb|k h min max Hr IH|k h h' value Hr IH Hadd]; simpl.
  - reflexivity.
  - unfold setThresholds. destruct (F32.ltb min max) eqn:Hlt; simpl; [|exact IH].
    destruct min; try reflexivity. discriminate Hlt.
  - apply addValue_Some in Hadd as [->|(bin & c & Hc & ->)]; exact IH.
Qed.

(** C10, as the code has it. On an empty histogram (element count zero,
    all bins zero) whose bin width is finite, [meanValue] returns a value
    equal to [threshold_min], and [threshold_min] itself unless that is a
    zero. *)
Theorem meanValue_empty (n : Z) (h : FeatureHistogram) :
  reachable n h ->
  getNumberOfElements h = 0 ->
  Forall (fun c => c = 0) (histogram_ h) ->
  F32.is_finite (step_ h) = true ->
  F32.eqb (meanValue h) (getThresholdMin h) = true
  /\ ((forall s, getThresholdMin h <> S754_zero s) -> meanValue h = getThresholdMin h).
Proof.
  intros Hr _ Hz Hfin. pose proof (reachable_min_not_nan n h Hr) as Hmin.
  unfold meanValue, bin_value, getThresholdMin. rewrite (max_element_zeros _ Hz).
  destruct (F32Facts.mul_finite_zero (step_ h) Hfin) as [s Hs].
  change (Z.of_nat 0) with 0. rewrite Hs. split.
  - apply F32Facts.add_zero_l. exact Hmin.
  - intros Hnz. destruct (threshold_min_ h) as [s'| | |]; try reflexivity.
    destruct (Hnz s' eq_refl).
Qed.

Lemma meanValue_empty_witness :
  F32.eqb (meanValue height_prototype) (getThresholdMin height_prototype) = true
  /\ ((forall s, getThresholdMin height_prototype <> S754_zero s) ->
      meanValue height_prototype = getThresholdMin height_prototype).
Proof.
  apply (meanValue_empty 0 height_prototype).
  - apply (reach_setThresholds 0 (new_FeatureHistogram 200)).
    apply (reach_new 200). unfold size_t_ok. lia.
  - reflexivity.
  - apply Forall_forall. intros c Hc. apply elem_of_replicate in Hc. tauto.
  - reflexivity.
Defined.

(** The empty histogram over (-FLT_MAX, FLT_MAX): the bin width is infinite
    and [meanValue] is a NaN, which equals nothing. C10 fails as stated. *)
Lemma meanValue_empty_counterexample :
  reachable 0 wide_histogram
  /\ getNumberOfElements wide_histogram = 0
  /\ histogram_ wide_histogram = [0]
  /\ meanValue wide_histogram = F32.nan
  /\ F32.eqb (meanValue wide_histogram) (getThresholdMin wide_histogram) = false
  /\ meanValue wide_histogram <> getThresholdMin wide_histogram.
Proof.
  split.
  - apply (reach_setThresholds 0 (new_FeatureHistogram 1)).
    apply (reach_new 1). unfold size_t_ok. lia.
  - vm_compute. repeat split; try reflexivity. discriminate.
Qed.

(** ** FeatureHistogram: the spread *)

Lemma variance_loop_prefix (h : FeatureHistogram) (mean : float) (k : nat) :
  Forall (fun c => 0 <= c < 2 ^ 32) (histogram_ h) ->
  (k <= length (histogram_ h))%nat ->
  for_range (Z.of_nat k) (fun bin acc => variance_step h mean acc bin) F32.zero
    = Some (foldl F32.add F32.zero (variance_terms h mean (take k (histogram_ h)))).
Proof.
  intros Hbins. induction k as [|k IH]; intros Hk.
  - rewrite for_range_nil by lia. rewrite take_0. reflexivity.
  - rewrite Nat2Z.inj_succ. change (Z.succ (Z.of_nat k)) with (Z.of_nat k + 1).
    rewrite for_range_succ by lia. rewrite IH by lia. simpl.
    destruct (lookup_lt_is_Some_2 (histogram_ h) k ltac:(lia)) as [c Hc].
    unfold variance_step. rewrite Nat2Z.id, Hc. simpl.
    rewrite (take_S_r _ _ _ Hc). unfold variance_terms.
    rewrite imap_app, omap_app, foldl_app. simpl.
    rewrite length_take_le by lia. rewrite Nat.add_0_r.
    assert (0 <= c) by (rewrite Forall_lookup in Hbins; apply (Hbins _ _ Hc)).
    destruct (Z.eqb_spec c 0) as [->|Hne]; simpl; [reflexivity|].
    destruct (Z.ltb_spec 0 c); [reflexivity|lia].
Qed.

Lemma variance_loop (h : FeatureHistogram) (mean : float) :
  wf_hist h ->
  for_range (number_of_bins_ h) (fun bin acc => variance_step h mean acc bin) F32.zero
    = Some (foldl F32.add F32.zero (variance_terms h mean (histogram_ h))).
Proof.
  intros [W1 W2 W3 W4].
  rewrite <- (Z2Nat.id (number_of_bins_ h)) by (destruct W4; lia).
  rewrite <- W1. rewrite variance_loop_prefix by (auto; lia).
  rewrite take_ge by lia. reflexivity.
Qed.

Lemma variance_terms_nonneg (h : FeatureHistogram) (mean : float) (l : list Z) :
  Forall F32.nonneg (variance_terms h mean l).
Proof.
  apply Forall_forall. intros t Ht. unfold variance_terms in Ht.
  apply list_elem_of_omap in Ht as ([bin c] & _ & Hf).
  destruct (c =? 0); [discriminate|]. injection Hf as <-.
  apply F32Facts.sign_clear_nonneg, F32Facts.mul_self_clear.
Qed.

Lemma foldl_add_nonneg (l : list float) (acc : float) :
  F32.nonneg acc -> Forall F32.nonneg l -> F32.nonneg (foldl F32.add acc l).
Proof.
  intros Hacc Hl. revert acc Hacc.
  induction Hl as [|t l Ht Hl IH]; intros acc Hacc; simpl; [exact Hacc|].
  apply IH. apply F32Facts.add_nonneg; assumption.
Qed.

Lemma variance_spec_nonneg (h : FeatureHistogram) (mean : float) :
  0 <= number_of_elements_ h -> F32.nonneg (variance_spec h mean).
Proof.
  intros Hn. unfold variance_spec. apply F32Facts.div_nonneg.
  - apply foldl_add_nonneg; [exact I|apply variance_terms_nonneg].
  - apply F32Facts.of_Z_clear. exact Hn.
Qed.

Lemma variance_cases (h : FeatureHistogram) (mean : float) :
  wf_hist h ->
  (number_of_elements_ h = 0 -> variance h mean = Some F32.minus_one)
  /\ (number_of_elements_ h <> 0 ->
      variance h mean = Some (variance_spec h mean)
      /\ F32.nonneg (variance_spec h mean)).
Proof.
  intros Hwf. unfold variance. split.
  - intros ->. reflexivity.
  - intros Hn. destruct (Z.eqb_spec (number_of_elements_ h) 0) as [|_]; [contradiction|].
    rewrite (variance_loop h mean Hwf). simpl. split; [reflexivity|].
    apply variance_spec_nonneg. destruct Hwf as [_ _ [H _] _]. exact H.
Qed.

(** C7, as the code has it. [variance (mean)] returns exactly -1.0 when
    the element count is zero; otherwise it returns the sum, over every bin
    with a nonzero count and in bin order, of the squared difference between
    count times bin value and [mean], divided by the element count, and this
    result is never below zero: it is non-negative or a NaN. *)
Theorem variance_spec_correct (h : FeatureHistogram) (mean : float) :
  wf_hist h ->
  (getNumberOfElements h = 0 -> variance h mean = Some F32.minus_one)
  /\ (getNumberOfElements h <> 0 ->
      variance h mean = Some (variance_spec h mean)
      /\ F32.ltb (variance_spec h mean) F32.zero = false
      /\ (F32.is_nan (variance_spec h mean) = true
          \/ F32.leb F32.zero (variance_spec h mean) = true)).
Proof.
  intros Hwf. destruct (variance_cases h mean Hwf) as [H0 H1].
  unfold getNumberOfElements. split; [exact H0|].
  intros Hn. destruct (H1 Hn) as [Hv Hnn]. split; [exact Hv|]. split.
  - apply F32Facts.nonneg_not_lt_zero. exact Hnn.
  - apply F32Facts.nonneg_nan_or_ge. exact Hnn.
Qed.

Lemma variance_spec_correct_witness :
  (getNumberOfElements (one_bin 1) = 0 -> variance (one_bin 1) half = Some F32.minus_one)
  /\ (getNumberOfElements (one_bin 1) <> 0 ->
      variance (one_bin 1) half = Some (variance_spec (one_bin 1) half)
      /\ F32.ltb (variance_spec (one_bin 1) half) F32.zero = false
      /\ (F32.is_nan (variance_spec (one_bin 1) half) = true
          \/ F32.leb F32.zero (variance_spec (one_bin 1) half) = true)).
Proof.
  apply (variance_spec_correct (one_bin 1) half).
  split; simpl.
  - reflexivity.
  - repeat constructor; vm_compute; congruence.
  - unfold size_t_ok. vm_compute. split; congruence.
  - unfold size_t_ok. lia.
Defined.

(** After one insertion into the histogram over (-FLT_MAX, FLT_MAX), the
    variance about its own [meanValue] is a NaN, and a NaN is not
    non-negative. C7 fails as stated. *)
Lemma variance_counterexample :
  reachable 1 wide_histogram_1
  /\ getNumberOfElements wide_histogram_1 = 1
  /\ variance wide_histogram_1 (meanValue wide_histogram_1) = Some F32.nan
  /\ variance wide_histogram_1 F32.zero = Some F32.nan
  /\ F32.leb F32.zero F32.nan = false.
Proof.
  split; [apply wide_histogram_1_reachable|]. vm_compute. repeat split; reflexivity.
Qed.

(** ** compute: set-up and the missing image *)

Arguments height_histogram_example : simpl never.
Arguments intensity_histogram_example : simpl never.
Arguments height_prototype : simpl never.
Arguments intensity_prototype : simpl never.
Arguments wrap64 : simpl never.
Arguments wrap32 : simpl never.

Section ComputeFacts.

Variable translateCoordinates : Z -> Z -> float -> PointXYZ.t.
Variable default_PointDEM : PointDEM.t.

Local Abbreviation compute := (compute translateCoordinates default_PointDEM).
Local Abbreviation accumulate := (accumulate translateCoordinates).
Local Abbreviation accumulate_pixel := (accumulate_pixel translateCoordinates).
Local Abbreviation reduce := (reduce translateCoordinates).
Local Abbreviation dem_cell := (dem_cell translateCoordinates).
Local Abbreviation fresh_cloud := (fresh_cloud default_PointDEM).

Lemma compute_unfold (b : DigitalElevationMapBuilder) out :
  compute b out =
    kColumnStep ← kColumnStep_of b;
    match image_ (base b) with
    | None => Some (Some (fresh_cloud b), [ErrImageNotAllocated])
    | Some img =>
        hs ← accumulate b img kColumnStep (kDisparityStep_of b) (initial_histograms b);
        cloud ← reduce b kColumnStep (kDisparityStep_of b) hs (fresh_cloud b);
        Some (Some cloud, [])
    end.
Proof.
  unfold compute.
  rewrite height_histogram_example_eq, intensity_histogram_example_eq.
  destruct (kColumnStep_of b) as [ks|]; [|reflexivity]. reflexivity.
Qed.

Lemma kColumnStep_of_Some (b : DigitalElevationMapBuilder) :
  resolution_column_ b <> 0 ->
  kColumnStep_of b
    = Some (wrap64 (wrap64 (disparity_map_width_ (base b) - 1) / resolution_column_ b + 1)).
Proof.
  intros Hrc. unfold kColumnStep_of, size_t_div.
  destruct (Z.eqb_spec (resolution_column_ b) 0); [contradiction|reflexivity].
Qed.

(** C1, as the code has it. Without an image, [compute] logs the error
    and returns before either pass; by then the output pointer already
    holds a newly allocated grid of [resolution_column] x
    [resolution_disparity] default-constructed cells. *)
Theorem compute_without_image (b : DigitalElevationMapBuilder)
    (out : option (PointCloud PointDEM.t)) :
  image_ (base b) = None ->
  resolution_column_ b <> 0 ->
  compute b out = Some (Some (fresh_cloud b), [ErrImageNotAllocated])
  /\ width (fresh_cloud b) = resolution_column_ b
  /\ height (fresh_cloud b) = resolution_disparity_ b
  /\ points (fresh_cloud b)
     = replicate (Z.to_nat (resolution_column_ b * resolution_disparity_ b))
         default_PointDEM.
Proof.
  intros Himg Hrc. rewrite compute_unfold, (kColumnStep_of_Some b Hrc), Himg.
  repeat split; reflexivity.
Qed.

(** *** The accumulation pass *)

Lemma accumulate_pixel_outside b img ks ds column row (hs : histograms) d :
  disparity_map_ (base b)
    !! Z.to_nat (wrap64 (column + row * disparity_map_width_ (base b))) = Some d ->
  F32.leb d (disparity_threshold_min_ (base b)) = true
  \/ F32.leb (disparity_threshold_max_ (base b)) d = true ->
  accumulate_pixel b img ks ds column row hs = Some hs.
Proof.
  intros Hd Hout. unfold accumulate_pixel. rewrite Hd. simpl.
  destruct Hout as [H|H]; apply F32Facts.leb_not_ltb in H; rewrite H;
    rewrite ?andb_false_r; reflexivity.
Qed.

(** An accepted pixel whose histograms exist updates exactly the pair of
    histograms at its flat index. *)
Lemma accumulate_pixel_inside b img ks ds column row (hs : histograms)
    d point_RGB index hh hh' ih ih' :
  let pixel := Z.to_nat (wrap64 (column + row * disparity_map_width_ (base b))) in
  disparity_map_ (base b) !! pixel = Some d ->
  F32.ltb (disparity_threshold_min_ (base b)) d = true ->
  F32.ltb d (disparity_threshold_max_ (base b)) = true ->
  points img !! pixel = Some point_RGB ->
  pixel_index b ks ds column d = Some index ->
  hs.1 !! Z.to_nat index = Some hh ->
  addValue hh (PointXYZ.y (translateCoordinates row column d)) = Some hh' ->
  hs.2 !! Z.to_nat index = Some ih ->
  addValue ih (F32.of_Z (Z.quot (RGB.r point_RGB + RGB.g point_RGB + RGB.b point_RGB) 3))
    = Some ih' ->
  accumulate_pixel b img ks ds column row hs
    = Some (<[Z.to_nat index := hh']> (hs.1), <[Z.to_nat index := ih']> (hs.2)).
Proof.
  intros pixel Hd H1 H2 Hrgb Hidx Hhh Hadd Hih Hadd'.
  unfold accumulate_pixel. fold pixel.
  rewrite Hd. simpl. rewrite H1, H2. simpl. rewrite Hrgb. simpl.
  rewrite Hidx. simpl. rewrite Hhh. simpl. rewrite Hadd. simpl.
  rewrite Hih. simpl. rewrite Hadd'. reflexivity.
Qed.

Lemma accumulate_pixel_ok b img ks ds column row (hs hs' : histograms) n :
  tables_ok n hs ->
  accumulate_pixel b img ks ds column row hs = Some hs' ->
  tables_ok n hs'.
Proof.
  intros (L1 & L2 & W1 & W2). unfold accumulate_pixel.
  destruct (disparity_map_ (base b) !! _) as [d|]; simpl; [|discriminate].
  destruct (_ && _); [|intros [= <-]; repeat split; assumption].
  destruct (points img !! _) as [rgb|]; simpl; [|discriminate].
  destruct (pixel_index b ks ds column d) as [index|]; simpl; [|discriminate].
  destruct (hs.1 !! Z.to_nat index) as [hh|] eqn:Hhh; simpl; [|discriminate].
  destruct (addValue hh _) as [hh'|] eqn:Hadd; simpl; [|discriminate].
  destruct (hs.2 !! Z.to_nat index) as [ih|] eqn:Hih; simpl; [|discriminate].
  destruct (addValue ih _) as [ih'|] eqn:Hadd'; simpl; [|discriminate].
  intros [= <-]. unfold tables_ok. simpl. rewrite !length_insert.
  repeat split; try assumption.
  - apply Forall_insert; [exact W1|]. apply (addValue_wf hh _ _ ltac:(rewrite Forall_lookup in W1; apply (W1 _ _ Hhh)) Hadd).
  - apply Forall_insert; [exact W2|]. apply (addValue_wf ih _ _ ltac:(rewrite Forall_lookup in W2; apply (W2 _ _ Hih)) Hadd').
Qed.

Lemma accumulate_ok b img ks ds (hs hs' : histograms) n :
  tables_ok n hs -> accumulate b img ks ds hs = Some hs' -> tables_ok n hs'.
Proof.
  intros Hok Hacc. unfold accumulate in Hacc.
  destruct (Z.le_gt_cases 0 (disparity_map_width_ (base b))) as [Hw|Hw];
    [|rewrite for_range_nil in Hacc by lia; injection Hacc as <-; exact Hok].
  apply (for_range_partial (fun _ t => tables_ok n t) _ _ _ _ Hw Hok) in Hacc; [exact Hacc|].
  intros column u u' _ Hu Hrow.
  destruct (Z.le_gt_cases 0 (disparity_map_height_ (base b))) as [Hh|Hh];
    [|rewrite for_range_nil in Hrow by lia; injection Hrow as <-; exact Hu].
  apply (for_range_partial (fun _ t => tables_ok n t) _ _ _ _ Hh Hu) in Hrow; [exact Hrow|].
  intros row v v' _ Hv. apply accumulate_pixel_ok. exact Hv.
Qed.

Lemma initial_histograms_ok b :
  tables_ok (Z.to_nat (wrap64 (resolution_column_ b * resolution_disparity_ b)))
    (initial_histograms b).
Proof.
  unfold tables_ok, initial_histograms. simpl. rewrite !length_replicate.
  repeat split; apply Forall_replicate; apply setThresholds_wf, new_FeatureHistogram_wf;
    unfold size_t_ok, kIntensityBins; lia.
Qed.

(** A disparity map with no value above the lower threshold leaves every
    histogram as it was. *)
Lemma accumulate_background b img ks ds (hs : histograms) :
  Z.of_nat (length (disparity_map_ (base b)))
    = disparity_map_width_ (base b) * disparity_map_height_ (base b) ->
  Forall (fun d => F32.leb d (disparity_threshold_min_ (base b)) = true)
    (disparity_map_ (base b)) ->
  accumulate b img ks ds hs = Some hs.
Proof.
  intros Hlen Hbg. unfold accumulate.
  destruct (Z.le_gt_cases 0 (disparity_map_width_ (base b))) as [Hw|Hw];
    [|apply for_range_nil; lia].
  destruct (for_range_total (fun _ t => t = hs) (disparity_map_width_ (base b))
              (fun column =>
                 for_range (disparity_map_height_ (base b))
                   (fun row => accumulate_pixel b img ks ds column row)) hs Hw eq_refl)
    as (t & Ht & ->); [|exact Ht].
  intros column u Hcol ->. exists hs. split; [|reflexivity].
  destruct (Z.le_gt_cases 0 (disparity_map_height_ (base b))) as [Hh|Hh];
    [|apply for_range_nil; lia].
  destruct (for_range_total (fun _ t => t = hs) (disparity_map_height_ (base b))
              (fun row => accumulate_pixel b img ks ds column row) hs Hh eq_refl)
    as (t & Ht & ->); [|exact Ht].
  intros row u Hrow ->. exists hs. split; [|reflexivity].
  set (p := column + row * disparity_map_width_ (base b)).
  assert (Hp : 0 <= p < Z.of_nat (length (disparity_map_ (base b)))) by (subst p; nia).
  assert (Hwp : 0 <= wrap64 p <= p).
  { unfold wrap64. split; [apply Z.mod_pos_bound; lia|apply Z.mod_le; lia]. }
  destruct (lookup_lt_is_Some_2 (disparity_map_ (base b)) (Z.to_nat (wrap64 p))
              ltac:(lia)) as [d Hd].
  apply (accumulate_pixel_outside _ _ _ _ _ _ _ d Hd). left.
  rewrite Forall_lookup in Hbg. apply (Hbg _ _ Hd).
Qed.

(** *** The reduction pass *)

Lemma cloud_index_Some {PointT : Type} (c : PointCloud PointT) column row i :
  cloud_index c column row = Some i <->
  0 <= column < width c /\ 0 <= row < height c
  /\ i = Z.to_nat (row * width c + column).
Proof.
  unfold cloud_index.
  destruct (Z.leb_spec 0 column), (Z.ltb_spec column (width c)),
    (Z.leb_spec 0 row), (Z.ltb_spec row (height c)); simpl;
    split; try discriminate; try (intros (? & ? & ?); lia).
  - intros [= <-]. repeat split; assumption.
  - intros (_ & _ & ->). reflexivity.
Qed.

Lemma cloud_index_inj {PointT : Type} (c : PointCloud PointT) column row column' row' i :
  cloud_index c column row = Some i -> cloud_index c column' row' = Some i ->
  column = column' /\ row = row'.
Proof.
  intros H H'. apply cloud_index_Some in H as (Hc & Hr & ->).
  apply cloud_index_Some in H' as (Hc' & Hr' & Hi).
  assert (row * width c + column = row' * width c + column') by nia.
  assert (row = row') by nia. split; [nia|assumption].
Qed.

Lemma cloud_at_put_Some {PointT : Type} (c c' : PointCloud PointT) column row p :
  cloud_at_put c column row p = Some c' ->
  exists i, cloud_index c column row = Some i
    /\ (i < length (points c))%nat
    /\ c' = mkPointCloud (width c) (height c) (<[i := p]> (points c)).
Proof.
  unfold cloud_at_put.
  destruct (cloud_index c column row) as [i|]; simpl; [|discriminate].
  destruct (points c !! i) as [q|] eqn:Hq; simpl; [|discriminate].
  intros [= <-]. exists i. apply lookup_lt_Some in Hq. auto.
Qed.

Section Reduce.

Variables (b : DigitalElevationMapBuilder) (ks : Z) (ds : float) (hs : histograms).

Local Abbreviation filled := (filled translateCoordinates b ks ds hs).
Local Abbreviation reduce_inv := (reduce_inv translateCoordinates b ks ds hs).
Local Abbreviation reduce_body := (reduce_body translateCoordinates b ks ds hs).

Lemma filled_put cloud ic id p i ic' id' :
  cloud_index cloud ic id = Some i ->
  (ic', id') <> (ic, id) ->
  filled cloud ic' id' ->
  filled (mkPointCloud (width cloud) (height cloud) (<[i := p]> (points cloud))) ic' id'.
Proof.
  intros Hi Hne (q & Hq & Hat). exists q. split; [exact Hq|].
  unfold cloud_at in *.
  change (cloud_index (mkPointCloud _ _ _) ic' id') with (cloud_index cloud ic' id').
  destruct (cloud_index cloud ic' id') as [i'|] eqn:Hi'; simpl in *; [|discriminate].
  rewrite list_lookup_insert_ne; [exact Hat|].
  intros <-. destruct (cloud_index_inj _ _ _ _ _ _ Hi Hi'). congruence.
Qed.

Lemma reduce_body_step n ic id cloud cloud' :
  reduce_inv n ic id cloud ->
  reduce_body ic id cloud = Some cloud' ->
  reduce_inv n ic (id + 1) cloud'.
Proof.
  intros (Hw & Hh & Hn & Hold & Hcur). unfold reduce_body.
  destruct (dem_cell b ks ds hs ic id) as [p|] eqn:Hp; simpl; [|discriminate].
  intros Hput. apply cloud_at_put_Some in Hput as (i & Hi & Hlt & ->).
  unfold reduce_inv. simpl. rewrite length_insert.
  repeat split; try assumption.
  - intros ic' id' Hic' Hid'. apply (filled_put cloud ic id p i ic' id' Hi); [|auto].
    intros [= -> ->]. lia.
  - intros id' Hid'. destruct (Z.eq_dec id' id) as [->|Hne].
    + exists p. split; [exact Hp|]. unfold cloud_at.
      change (cloud_index (mkPointCloud _ _ _) ic id) with (cloud_index cloud ic id).
      rewrite Hi. simpl. apply list_lookup_insert_eq. exact Hlt.
    + apply (filled_put cloud ic id p i ic id' Hi); [|apply Hcur; lia].
      intros [= ->]. lia.
Qed.

Lemma reduce_inv_next_column n ic cloud :
  reduce_inv n ic (resolution_disparity_ b) cloud -> reduce_inv n (ic + 1) 0 cloud.
Proof.
  intros (Hw & Hh & Hn & Hold & Hcur). repeat split; try assumption.
  - intros ic' id' Hic' Hid'. destruct (Z.eq_dec ic' ic) as [->|Hne].
    + apply Hcur. exact Hid'.
    + apply Hold; [lia|exact Hid'].
  - intros id' Hid'. lia.
Qed.

Lemma reduce_inv_start n ic cloud :
  resolution_disparity_ b <= 0 -> reduce_inv n ic 0 cloud -> reduce_inv n (ic + 1) 0 cloud.
Proof.
  intros Hrd (Hw & Hh & Hn & Hold & Hcur). repeat split; try assumption; intros; lia.
Qed.

(** A reduction pass that returned filled every cell. *)
Lemma reduce_partial n cloud0 cloud :
  0 <= resolution_column_ b ->
  reduce_inv n 0 0 cloud0 ->
  reduce b ks ds hs cloud0 = Some cloud ->
  reduce_inv n (resolution_column_ b) 0 cloud.
Proof.
  intros Hrc H0 Hred. unfold reduce in Hred.
  apply (for_range_partial (fun ic c => reduce_inv n ic 0 c) _ _ _ _ Hrc H0) in Hred;
    [exact Hred|].
  intros ic u u' Hic Hu Hrow.
  destruct (Z.le_gt_cases 0 (resolution_disparity_ b)) as [Hrd|Hrd].
  - apply reduce_inv_next_column.
    apply (for_range_partial (fun id c => reduce_inv n ic id c) _ _ _ _ Hrd Hu) in Hrow;
      [exact Hrow|].
    intros id v v' Hid Hv Hbody. apply (reduce_body_step n ic id v v' Hv Hbody).
  - rewrite for_range_nil in Hrow by lia. injection Hrow as <-.
    apply reduce_inv_start; [lia|exact Hu].
Qed.

(** When every cell can be computed and the grid is large enough, the
    reduction pass returns. *)
Lemma reduce_total n cloud0 :
  0 <= resolution_column_ b -> 0 <= resolution_disparity_ b ->
  resolution_column_ b * resolution_disparity_ b <= Z.of_nat n ->
  (forall ic id, 0 <= ic < resolution_column_ b -> 0 <= id < resolution_disparity_ b ->
     is_Some (dem_cell b ks ds hs ic id)) ->
  reduce_inv n 0 0 cloud0 ->
  exists cloud, reduce b ks ds hs cloud0 = Some cloud
    /\ reduce_inv n (resolution_column_ b) 0 cloud.
Proof.
  intros Hrc Hrd Hn Hcell H0. unfold reduce.
  apply (for_range_total (fun ic c => reduce_inv n ic 0 c) _ _ _ Hrc H0).
  intros ic u Hic Hu.
  destruct (for_range_total (fun id c => reduce_inv n ic id c)
              (resolution_disparity_ b) (reduce_body ic) u Hrd Hu)
    as (t & Ht & HI).
  - intros id v Hid Hv.
    assert (Hsome : is_Some (reduce_body ic id v)).
    { unfold reduce_body. destruct (Hcell ic id Hic Hid) as [p ->]. simpl.
      destruct Hv as (Hw & Hh & Hlen & _).
      unfold cloud_at_put.
      assert (Hi : cloud_index v ic id = Some (Z.to_nat (id * width v + ic)))
        by (apply cloud_index_Some; repeat split; lia).
      rewrite Hi. simpl.
      destruct (lookup_lt_is_Some_2 (points v) (Z.to_nat (id * width v + ic))
                  ltac:(rewrite Hw; nia)) as [q ->].
      simpl. eauto. }
    destruct Hsome as [v' Hv']. exists v'. split; [exact Hv'|].
    apply (reduce_body_step n ic id v v' Hv Hv').
  - exists t. split; [exact Ht|]. apply reduce_inv_next_column. exact HI.
Qed.

End Reduce.

Local Abbreviation reduce_inv := (reduce_inv translateCoordinates).
Local Abbreviation invalid_cell := (invalid_cell translateCoordinates).

Lemma fresh_cloud_inv b ks ds hs :
  reduce_inv b ks ds hs
    (Z.to_nat (resolution_column_ b * resolution_disparity_ b)) 0 0 (fresh_cloud b).
Proof.
  unfold reduce_inv, fresh_cloud. simpl. rewrite length_replicate.
  repeat split; intros; lia.
Qed.

(** *** What the cells hold *)

Lemma dem_cell_invalid b ks ds (hs : histograms) ic id hh :
  hs.1 !! cell_index b ic id = Some hh ->
  getNumberOfElements hh < min_points_in_cell_ b ->
  dem_cell b ks ds hs ic id = Some (invalid_cell b ks ds ic id).
Proof.
  intros Hhh Hn. unfold dem_cell. fold (cell_index b ic id). rewrite Hhh. simpl.
  destruct (Z.leb_spec (min_points_in_cell_ b) (getNumberOfElements hh)); [lia|].
  reflexivity.
Qed.

(** The variance fields of a computed cell, by the counts of its histograms. *)
Lemma dem_cell_variances b ks ds (hs : histograms) ic id p hh ih :
  dem_cell b ks ds hs ic id = Some p ->
  hs.1 !! cell_index b ic id = Some hh ->
  hs.2 !! cell_index b ic id = Some ih ->
  wf_hist hh -> wf_hist ih ->
  (F32.eqb (PointDEM.height_variance p) F32.minus_one = true <->
     getNumberOfElements hh < min_points_in_cell_ b \/ getNumberOfElements hh = 0)
  /\ (F32.eqb (PointDEM.intensity_variance p) F32.minus_one = true <->
     getNumberOfElements hh < min_points_in_cell_ b \/ getNumberOfElements ih = 0).
Proof.
  intros Hp Hhh Hih Whh Wih. unfold dem_cell in Hp. fold (cell_index b ic id) in Hp.
  rewrite Hhh in Hp. simpl in Hp. unfold getNumberOfElements in *.
  destruct (Z.leb_spec (min_points_in_cell_ b) (number_of_elements_ hh)) as [Hge|Hlt].
  - rewrite Hih in Hp.
    destruct (variance_cases hh (meanValue hh) Whh) as [Hh0 Hh1].
    destruct (variance_cases ih (meanValue ih) Wih) as [Hi0 Hi1].
    assert (Hsent : forall n v, (n = 0 -> v = F32.minus_one) ->
              (n <> 0 -> F32.nonneg v) ->
              (F32.eqb v F32.minus_one = true <->
                 number_of_elements_ hh < min_points_in_cell_ b \/ n = 0)).
    { intros n v H0 H1. destruct (Z.eq_dec n 0) as [Hn|Hn].
      - rewrite (H0 Hn). split; [auto|reflexivity].
      - rewrite (F32Facts.nonneg_not_eqb_minus_one v (H1 Hn)).
        split; [discriminate|]. intros [?|?]; lia. }
    destruct (variance hh (meanValue hh)) as [hv|] eqn:Hhv; simpl in Hp; [|discriminate].
    destruct (variance ih (meanValue ih)) as [iv|] eqn:Hiv; simpl in Hp; [|discriminate].
    injection Hp as <-. simpl. split; apply Hsent.
    + intros Hn. specialize (Hh0 Hn). congruence.
    + intros Hn. destruct (Hh1 Hn) as [E Hnn]. congruence.
    + intros Hn. specialize (Hi0 Hn). congruence.
    + intros Hn. destruct (Hi1 Hn) as [E Hnn]. congruence.
  - injection Hp as <-. simpl. split; (split; [auto|reflexivity]).
Qed.

(** C2, as the code has it. For every cell of a grid that [compute]
    produced: [height_variance] equals -1.0 if and only if the height
    histogram of the cell accepted fewer than [min_points_in_cell] samples
    during the accumulation pass, or none at all; [intensity_variance]
    equals -1.0 if and only if the height histogram of the cell accepted
    fewer than [min_points_in_cell] samples or the intensity histogram of the
    cell accepted none. *)
Theorem variance_sentinel (b : DigitalElevationMapBuilder) (img : PointCloud RGB.t)
    (out : option (PointCloud PointDEM.t)) (cloud : PointCloud PointDEM.t)
    (log : list diagnostic) :
  image_ (base b) = Some img ->
  compute b out = Some (Some cloud, log) ->
  exists ks hs,
    kColumnStep_of b = Some ks
    /\ accumulate b img ks (kDisparityStep_of b) (initial_histograms b) = Some hs
    /\ forall ic id,
         0 <= ic < resolution_column_ b -> 0 <= id < resolution_disparity_ b ->
         exists cell hh ih,
           cloud_at cloud ic id = Some cell
           /\ hs.1 !! cell_index b ic id = Some hh
           /\ hs.2 !! cell_index b ic id = Some ih
           /\ (F32.eqb (PointDEM.height_variance cell) F32.minus_one = true <->
                 getNumberOfElements hh < min_points_in_cell_ b
                 \/ getNumberOfElements hh = 0)
           /\ (F32.eqb (PointDEM.intensity_variance cell) F32.minus_one = true <->
                 getNumberOfElements hh < min_points_in_cell_ b
                 \/ getNumberOfElements ih = 0).
Proof.
  intros Himg Hc. rewrite compute_unfold in Hc.
  destruct (kColumnStep_of b) as [ks|]; simpl in Hc; [|discriminate].
  rewrite Himg in Hc.
  destruct (accumulate b img ks _ _) as [hs|] eqn:Hacc; simpl in Hc; [|discriminate].
  destruct (reduce b ks _ hs _) as [cloud'|] eqn:Hred; simpl in Hc; [|discriminate].
  injection Hc as -> <-. exists ks, hs. split; [reflexivity|]. split; [exact Hacc|].
  intros ic id Hic Hid.
  pose proof (accumulate_ok _ _ _ _ _ _ _ (initial_histograms_ok b) Hacc)
    as (L1 & L2 & W1 & W2).
  pose proof (reduce_partial b ks _ hs _ _ _ ltac:(lia) (fresh_cloud_inv b ks _ hs) Hred)
    as (_ & _ & _ & Hfilled & _).
  destruct (Hfilled ic id Hic Hid) as (p & Hp & Hat).
  assert (Hhh : is_Some (hs.1 !! cell_index b ic id)).
  { unfold dem_cell in Hp. fold (cell_index b ic id) in Hp.
    destruct (hs.1 !! cell_index b ic id); [eauto|discriminate]. }
  destruct Hhh as [hh Hhh].
  destruct (lookup_lt_is_Some_2 (hs.2) (cell_index b ic id)) as [ih Hih].
  { apply lookup_lt_Some in Hhh. lia. }
  exists p, hh, ih. split; [exact Hat|]. split; [exact Hhh|]. split; [exact Hih|].
  apply (dem_cell_variances b ks _ hs ic id p hh ih Hp Hhh Hih).
  - rewrite Forall_lookup in W1. apply (W1 _ _ Hhh).
  - rewrite Forall_lookup in W2. apply (W2 _ _ Hih).
Qed.

(** C9. With an image attached, [min_points_in_cell] at its default 1 and
    a disparity map with no value above the lower threshold, [compute]
    returns a [resolution_column] x [resolution_disparity] grid in which
    every cell has y = 0.0, intensity = 255.0 and both variances -1.0. *)
Theorem compute_background (b : DigitalElevationMapBuilder) (img : PointCloud RGB.t)
    (out : option (PointCloud PointDEM.t)) :
  image_ (base b) = Some img ->
  min_points_in_cell_ b = 1 ->
  0 < resolution_column_ b -> 0 <= resolution_disparity_ b ->
  resolution_column_ b * resolution_disparity_ b < 2 ^ 64 ->
  Z.of_nat (length (disparity_map_ (base b)))
    = disparity_map_width_ (base b) * disparity_map_height_ (base b) ->
  forallb (fun d => F32.leb d (disparity_threshold_min_ (base b)))
    (disparity_map_ (base b)) = true ->
  exists cloud,
    compute b out = Some (Some cloud, [])
    /\ width cloud = resolution_column_ b
    /\ height cloud = resolution_disparity_ b
    /\ forall ic id,
         0 <= ic < resolution_column_ b -> 0 <= id < resolution_disparity_ b ->
         exists cell,
           cloud_at cloud ic id = Some cell
           /\ PointDEM.y cell = F32.zero
           /\ PointDEM.intensity cell = kIntensityMax
           /\ PointDEM.height_variance cell = F32.minus_one
           /\ PointDEM.intensity_variance cell = F32.minus_one.
Proof.
  intros Himg Hmin Hrc Hrd Hsize Hlen Hbg.
  assert (Hbg' : Forall (fun d => F32.leb d (disparity_threshold_min_ (base b)) = true)
                   (disparity_map_ (base b))).
  { apply Forall_forall. intros d Hd. rewrite forallb_forall in Hbg.
    apply Hbg, list_elem_of_In, Hd. }
  rewrite compute_unfold, (kColumnStep_of_Some b ltac:(lia)). simpl. rewrite Himg.
  set (ks := wrap64 _). set (ds := kDisparityStep_of b).
  rewrite (accumulate_background b img ks ds _ Hlen Hbg'). simpl.
  assert (Hcell : forall ic id,
             0 <= ic < resolution_column_ b -> 0 <= id < resolution_disparity_ b ->
             dem_cell b ks ds (initial_histograms b) ic id
               = Some (invalid_cell b ks ds ic id)).
  { intros ic id Hic Hid. apply (dem_cell_invalid _ _ _ _ _ _ height_prototype).
    - unfold initial_histograms, cell_index. simpl. apply lookup_replicate_2.
      rewrite !wrap64_small by nia. nia.
    - rewrite Hmin. reflexivity. }
  destruct (reduce_total b ks ds (initial_histograms b)
              (Z.to_nat (resolution_column_ b * resolution_disparity_ b)) (fresh_cloud b))
    as (cloud & Hred & Hw & Hh & _ & Hfilled & _).
  - lia.
  - exact Hrd.
  - lia.
  - intros ic id Hic Hid. rewrite (Hcell ic id Hic Hid). eauto.
  - apply fresh_cloud_inv.
  - exists cloud. rewrite Hred. simpl. split; [reflexivity|].
    split; [exact Hw|]. split; [exact Hh|].
    intros ic id Hic Hid. destruct (Hfilled ic id Hic Hid) as (p & Hp & Hat).
    rewrite (Hcell ic id Hic Hid) in Hp. injection Hp as <-.
    exists (invalid_cell b ks ds ic id). repeat split. exact Hat.
Qed.

End ComputeFacts.

(** ** Concrete runs *)

(** C1 fails as stated: called with a null output pointer and no image,
    [compute] hands back a 64 x 32 grid of 2048 default cells. *)
Lemma compute_without_image_counterexample :
  image_ (base builder_without_image) = None
  /\ run builder_without_image
     = Some (Some (fresh_cloud example_default builder_without_image),
             [ErrImageNotAllocated])
  /\ length (points (fresh_cloud example_default builder_without_image)) = 2048%nat
  /\ fst <$> run builder_without_image <> Some None.
Proof. vm_compute. repeat split; try reflexivity. discriminate. Qed.

Lemma compute_without_image_witness :
  run builder_without_image
    = Some (Some (fresh_cloud example_default builder_without_image),
            [ErrImageNotAllocated])
  /\ width (fresh_cloud example_default builder_without_image)
     = resolution_column_ builder_without_image
  /\ height (fresh_cloud example_default builder_without_image)
     = resolution_disparity_ builder_without_image
  /\ points (fresh_cloud example_default builder_without_image)
     = replicate (Z.to_nat (resolution_column_ builder_without_image
                            * resolution_disparity_ builder_without_image))
         example_default.
Proof.
  apply (compute_without_image example_translate example_default
           builder_without_image None).
  - reflexivity.
  - vm_compute. discriminate.
Defined.

(** An all-background map: every disparity is 0.0, the lower threshold. *)
Lemma compute_background_witness :
  exists cloud,
    run (example_builder F32.zero (Some gray_image)) = Some (Some cloud, [])
    /\ width cloud = 2
    /\ height cloud = 1
    /\ forall ic id, 0 <= ic < 2 -> 0 <= id < 1 ->
         exists cell,
           cloud_at cloud ic id = Some cell
           /\ PointDEM.y cell = F32.zero
           /\ PointDEM.intensity cell = kIntensityMax
           /\ PointDEM.height_variance cell = F32.minus_one
           /\ PointDEM.intensity_variance cell = F32.minus_one.
Proof.
  apply (compute_background example_translate example_default
           (example_builder F32.zero (Some gray_image)) gray_image None).
  - reflexivity.
  - reflexivity.
  - simpl. lia.
  - simpl. lia.
  - vm_compute. reflexivity.
  - reflexivity.
  - vm_compute. reflexivity.
Defined.

Lemma variance_sentinel_witness :
  let b := example_builder F32.one (Some gray_image) in
  exists ks hs,
    kColumnStep_of b = Some ks
    /\ accumulate example_translate b gray_image ks (kDisparityStep_of b)
         (initial_histograms b) = Some hs
    /\ forall ic id,
         0 <= ic < resolution_column_ b -> 0 <= id < resolution_disparity_ b ->
         exists cell hh ih,
           cloud_at gray_cloud ic id = Some cell
           /\ hs.1 !! cell_index b ic id = Some hh
           /\ hs.2 !! cell_index b ic id = Some ih
           /\ (F32.eqb (PointDEM.height_variance cell) F32.minus_one = true <->
                 getNumberOfElements hh < min_points_in_cell_ b
                 \/ getNumberOfElements hh = 0)
           /\ (F32.eqb (PointDEM.intensity_variance cell) F32.minus_one = true <->
                 getNumberOfElements hh < min_points_in_cell_ b
                 \/ getNumberOfElements ih = 0).
Proof.
  intros b.
  apply (variance_sentinel example_translate example_default b gray_image None
           gray_cloud []).
  - reflexivity.
  - vm_compute. reflexivity.
Defined.

(** C2 fails as stated. Over a black image the height histogram of cell
    (0, 0) accepts eight samples, at least [min_points_in_cell] = 1, and
    [height_variance] is not -1.0; yet every intensity 0 equals the lower
    threshold of the intensity histogram and is dropped, so
    [intensity_variance] is -1.0. And with [min_points_in_cell] set to 0 an
    all-background map gives both variances -1.0 in a cell that did not
    receive fewer than 0 samples. *)
Lemma variance_sentinel_counterexample :
  (let b := example_builder F32.one (Some black_image) in
   exists cloud cell hs hh,
     run b = Some (Some cloud, [])
     /\ cloud_at cloud 0 0 = Some cell
     /\ accumulated b black_image = Some hs
     /\ hs.1 !! cell_index b 0 0 = Some hh
     /\ getNumberOfElements hh = 8
     /\ min_points_in_cell_ b = 1
     /\ F32.eqb (PointDEM.height_variance cell) F32.minus_one = false
     /\ PointDEM.intensity_variance cell = F32.minus_one)
  /\ (let b := setMinPointsInCell (example_builder F32.zero (Some gray_image)) 0 in
      exists cloud cell hs hh,
        run b = Some (Some cloud, [])
        /\ cloud_at cloud 0 0 = Some cell
        /\ accumulated b gray_image = Some hs
        /\ hs.1 !! cell_index b 0 0 = Some hh
        /\ PointDEM.height_variance cell = F32.minus_one
        /\ PointDEM.intensity_variance cell = F32.minus_one
        /\ ~ getNumberOfElements hh < min_points_in_cell_ b).
Proof.
  split; intros b.
  - destruct (run b) as [[[cloud|] log]|] eqn:Hrun; try (vm_compute in Hrun; discriminate).
    destruct (cloud_at cloud 0 0) as [cell|] eqn:Hcell;
      [|vm_compute in Hrun; injection Hrun as <- <-; vm_compute in Hcell; discriminate].
    destruct (accumulated b black_image) as [hs|] eqn:Hacc;
      [|vm_compute in Hacc; discriminate].
    destruct (hs.1 !! cell_index b 0 0) as [hh|] eqn:Hhh;
      [|vm_compute in Hacc; injection Hacc as <-; vm_compute in Hhh; discriminate].
    exists cloud, cell, hs, hh.
    vm_compute in Hrun. injection Hrun as <- <-. vm_compute in Hcell. injection Hcell as <-.
    vm_compute in Hacc. injection Hacc as <-. vm_compute in Hhh. injection Hhh as <-.
    repeat split; reflexivity.
  - destruct (run b) as [[[cloud|] log]|] eqn:Hrun; try (vm_compute in Hrun; discriminate).
    destruct (cloud_at cloud 0 0) as [cell|] eqn:Hcell;
      [|vm_compute in Hrun; injection Hrun as <- <-; vm_compute in Hcell; discriminate].
    destruct (accumulated b gray_image) as [hs|] eqn:Hacc;
      [|vm_compute in Hacc; discriminate].
    destruct (hs.1 !! cell_index b 0 0) as [hh|] eqn:Hhh;
      [|vm_compute in Hacc; injection Hacc as <-; vm_compute in Hhh; discriminate].
    exists cloud, cell, hs, hh.
    vm_compute in Hrun. injection Hrun as <- <-. vm_compute in Hcell. injection Hcell as <-.
    vm_compute in Hacc. injection Hacc as <-. vm_compute in Hhh. injection Hhh as <-.
    repeat split; try reflexivity. vm_compute. discriminate.
Qed.

(** C8 at its failing input. The disparity lies strictly inside the window
    and the exact quotient [disparity / (1 / 100)] = 16777215 * 100 / 2^24
    has floor 99, but the binary32 quotient by the rounded step 0.01f, about
    99.9999963, lies between the neighbouring floats 99.9999924 and 100.0
    and rounds to 100.0: the pixel gets flat index 100 of 100 histograms, the
    access falls outside both tables and neither the pixel step nor
    [compute] returns normally. *)
Theorem accumulate_index_out_of_range :
  F32.ltb (disparity_threshold_min_ (base fine_builder)) below_one = true
  /\ F32.ltb below_one (disparity_threshold_max_ (base fine_builder)) = true
  /\ kColumnStep_of fine_builder = Some 1
  /\ pixel_index fine_builder 1 (kDisparityStep_of fine_builder) 0 below_one = Some 100
  /\ 16777215 * 100 / 2 ^ 24 = 99
  /\ length (initial_histograms fine_builder).1 = 100%nat
  /\ length (initial_histograms fine_builder).2 = 100%nat
  /\ accumulate_pixel example_translate fine_builder one_pixel_image 1
       (kDisparityStep_of fine_builder) 0 0 (initial_histograms fine_builder) = None
  /\ run fine_builder = None.
Proof. vm_compute. repeat split; reflexivity. Qed.

(** * Further properties of the histogram *)

Lemma addValue_unfold (h : FeatureHistogram) (value : float) :
  addValue h value =
    if accepts h value then
      bin ← bin_number_of h value;
      c ← histogram_ h !! Z.to_nat bin;
      Some (bumped h bin c)
    else Some h.
Proof. reflexivity. Qed.

Lemma ltb_nan_r (x : float) : F32.ltb x S754_nan = false.
Proof. destruct x; reflexivity. Qed.

Lemma to_size_t_range (x : float) (k : Z) : F32.to_size_t x = Some k -> 0 <= k < 2 ^ 64.
Proof.
  destruct x as [s|s| |s m e]; simpl; try discriminate.
  - intros [= <-]. lia.
  - assert (0 <= Z.shiftl (Z.pos m) e) by (apply Z.shiftl_nonneg; lia).
    destruct s.
    + destruct (Z.shiftl (Z.pos m) e =? 0); [intros [= <-]; lia|discriminate].
    + destruct (Z.ltb_spec (Z.shiftl (Z.pos m) e) (2 ^ 64)); [|discriminate].
      intros [= <-]. lia.
Qed.

(** X1. [addValue] drops a value that is at or below the lower threshold,
    at or above the upper one, or a NaN: the histogram it returns is the one
    it was given, bins, count and thresholds. *)
Theorem addValue_rejects (h : FeatureHistogram) (value : float) :
  F32.leb value (getThresholdMin h) = true
  \/ F32.leb (getThresholdMax h) value = true
  \/ F32.is_nan value = true ->
  addValue h value = Some h.
Proof.
  unfold getThresholdMin, getThresholdMax. rewrite addValue_unfold. unfold accepts.
  intros [H|[H|H]].
  - apply F32Facts.leb_not_ltb in H. rewrite H. reflexivity.
  - apply F32Facts.leb_not_ltb in H. rewrite H, andb_false_r. reflexivity.
  - destruct value; try discriminate. rewrite ltb_nan_r. reflexivity.
Qed.

Lemma addValue_rejects_witness : addValue three_bins F32.zero = Some three_bins.
Proof. apply (addValue_rejects three_bins F32.zero). left. reflexivity. Defined.

(** X2. A value strictly inside the range whose bin index is below the
    number of bins is counted: [addValue] returns, that bin goes up by one
    (modulo 2^32), every other bin keeps its count, the element count goes up
    by one (modulo 2^64) and thresholds, bin width and number of bins stay. *)
Theorem addValue_accepts (h : FeatureHistogram) (value : float) (bin : Z) :
  wf_hist h ->
  F32.ltb (getThresholdMin h) value = true ->
  F32.ltb value (getThresholdMax h) = true ->
  bin_number_of h value = Some bin ->
  bin < getNumberOfBins h ->
  exists c h',
    histogram_ h !! Z.to_nat bin = Some c
    /\ addValue h value = Some h'
    /\ histogram_ h' !! Z.to_nat bin = Some (wrap32 (c + 1))
    /\ (forall j, j <> Z.to_nat bin -> histogram_ h' !! j = histogram_ h !! j)
    /\ getNumberOfElements h' = wrap64 (getNumberOfElements h + 1)
    /\ getThresholdMin h' = getThresholdMin h
    /\ getThresholdMax h' = getThresholdMax h
    /\ step_ h' = step_ h
    /\ getNumberOfBins h' = getNumberOfBins h.
Proof.
  unfold getThresholdMin, getThresholdMax, getNumberOfBins, getNumberOfElements.
  intros [W1 _ _ _] H1 H2 Hbin Hlt.
  pose proof (to_size_t_range _ _ Hbin) as Hk.
  destruct (lookup_lt_is_Some_2 (histogram_ h) (Z.to_nat bin) ltac:(lia)) as [c Hc].
  exists c, (bumped h bin c). split; [exact Hc|]. split.
  - rewrite addValue_unfold. unfold accepts. rewrite H1, H2, Hbin. simpl.
    rewrite Hc. reflexivity.
  - simpl. split.
    + apply list_lookup_insert_eq. apply lookup_lt_Some in Hc. exact Hc.
    + split; [|repeat split; reflexivity].
      intros j Hj. apply list_lookup_insert_ne. congruence.
Qed.

Lemma addValue_accepts_witness :
  exists c h',
    histogram_ three_bins !! Z.to_nat 1 = Some c
    /\ addValue three_bins one_and_a_half = Some h'
    /\ histogram_ h' !! Z.to_nat 1 = Some (wrap32 (c + 1))
    /\ (forall j, j <> Z.to_nat 1 -> histogram_ h' !! j = histogram_ three_bins !! j)
    /\ getNumberOfElements h' = wrap64 (getNumberOfElements three_bins + 1)
    /\ getThresholdMin h' = getThresholdMin three_bins
    /\ getThresholdMax h' = getThresholdMax three_bins
    /\ step_ h' = step_ three_bins
    /\ getNumberOfBins h' = getNumberOfBins three_bins.
Proof.
  apply (addValue_accepts three_bins one_and_a_half 1).
  - split; simpl.
    + reflexivity.
    + repeat constructor; vm_compute; congruence.
    + unfold size_t_ok. lia.
    + unfold size_t_ok. lia.
  - reflexivity.
  - reflexivity.
  - reflexivity.
  - simpl. lia.
Defined.

(** X3. On a well-formed histogram [addValue] fails to return in exactly
    one situation: the value passes the range test and its bin index either
    cannot be computed (the quotient is infinite, a NaN or too large) or is
    not below the number of bins. *)
Theorem addValue_fails_iff (h : FeatureHistogram) (value : float) :
  wf_hist h ->
  (addValue h value = None <->
     accepts h value = true
     /\ (bin_number_of h value = None
         \/ exists bin, bin_number_of h value = Some bin /\ getNumberOfBins h <= bin)).
Proof.
  unfold getNumberOfBins. intros [W1 _ _ _]. rewrite addValue_unfold.
  destruct (accepts h value); [|split; [discriminate|intros [? _]; discriminate]].
  destruct (bin_number_of h value) as [bin|] eqn:Hbin; simpl.
  - pose proof (to_size_t_range _ _ Hbin) as Hk.
    destruct (histogram_ h !! Z.to_nat bin) as [c|] eqn:Hc; simpl.
    + apply lookup_lt_Some in Hc. split; [discriminate|].
      intros [_ [H|(k & [= <-] & Hk')]]; [discriminate|lia].
    + apply lookup_ge_None in Hc. split; [|reflexivity].
      intros _. split; [reflexivity|]. right. exists bin. split; [reflexivity|lia].
  - split; auto.
Qed.

Lemma addValue_fails_iff_witness :
  addValue height_prototype below_kHeightMax = None <->
    accepts height_prototype below_kHeightMax = true
    /\ (bin_number_of height_prototype below_kHeightMax = None
        \/ exists bin, bin_number_of height_prototype below_kHeightMax = Some bin
                       /\ getNumberOfBins height_prototype <= bin).
Proof.
  apply (addValue_fails_iff height_prototype below_kHeightMax).
  split.
  - reflexivity.
  - apply Forall_forall. intros c Hc. apply elem_of_replicate in Hc as [-> _]. lia.
  - unfold size_t_ok. simpl. lia.
  - unfold size_t_ok. simpl. lia.
Defined.

Lemma bumped_config (h : FeatureHistogram) (bin c : Z) (value : float) :
  accepts (bumped h bin c) value = accepts h value
  /\ bin_number_of (bumped h bin c) value = bin_number_of h value.
Proof. split; reflexivity. Qed.

Lemma addValue_config (h h' : FeatureHistogram) (value : float) :
  addValue h value = Some h' ->
  threshold_min_ h' = threshold_min_ h /\ threshold_max_ h' = threshold_max_ h
  /\ step_ h' = step_ h /\ number_of_bins_ h' = number_of_bins_ h
  /\ length (histogram_ h') = length (histogram_ h).
Proof.
  intros Hadd. apply addValue_Some in Hadd as [->|(bin & c & _ & ->)]; simpl;
    rewrite ?length_insert; auto.
Qed.

Lemma addValue_after (h h1 : FeatureHistogram) (v1 v2 : float) :
  addValue h v1 = Some h1 ->
  addValue h1 v2 =
    if accepts h v2 then
      bin ← bin_number_of h v2;
      c ← histogram_ h1 !! Z.to_nat bin;
      Some (bumped h1 bin c)
    else Some h1.
Proof.
  intros Hadd. apply addValue_config in Hadd as (E1 & E2 & E3 & _ & _).
  rewrite addValue_unfold. unfold accepts, bin_number_of. rewrite E1, E2, E3. reflexivity.
Qed.

(** X4. The order of two insertions does not matter: adding [v1] then [v2]
    and adding [v2] then [v1] return the same histogram, or both fail to
    return. *)
Theorem addValue_commutes (h : FeatureHistogram) (v1 v2 : float) :
  (h1 ← addValue h v1; addValue h1 v2) = (h2 ← addValue h v2; addValue h2 v1).
Proof.
  destruct (addValue h v1) as [h1|] eqn:A1; destruct (addValue h v2) as [h2|] eqn:A2; simpl.
  - rewrite (addValue_after h h1 v1 v2 A1), (addValue_after h h2 v2 v1 A2).
    rewrite addValue_unfold in A1, A2.
    destruct (accepts h v1), (accepts h v2).
    + destruct (bin_number_of h v1) as [k1|]; simpl in *; [|discriminate].
      destruct (bin_number_of h v2) as [k2|]; simpl in *; [|discriminate].
      destruct (histogram_ h !! Z.to_nat k1) as [c1|] eqn:C1; simpl in *; [|discriminate].
      destruct (histogram_ h !! Z.to_nat k2) as [c2|] eqn:C2; simpl in *; [|discriminate].
      injection A1 as <-. injection A2 as <-. simpl.
      destruct (Nat.eq_dec (Z.to_nat k1) (Z.to_nat k2)) as [E|N].
      * rewrite <- E in *. assert (c2 = c1) by congruence. subst c2.
        rewrite list_lookup_insert_eq by (apply lookup_lt_Some in C1; exact C1).
        simpl. unfold bumped. simpl. rewrite <- E. reflexivity.
      * rewrite !list_lookup_insert_ne by congruence. rewrite C1, C2. simpl.
        unfold bumped. simpl. rewrite (list_insert_insert_ne _ _ _ _ _ N). reflexivity.
    + injection A2 as <-. symmetry. exact A1.
    + injection A1 as <-. exact A2.
    + congruence.
  - rewrite (addValue_after h h1 v1 v2 A1). rewrite addValue_unfold in A1, A2.
    destruct (accepts h v2); [|discriminate].
    destruct (bin_number_of h v2) as [k2|]; simpl in *; [|reflexivity].
    destruct (histogram_ h !! Z.to_nat k2) as [c2|] eqn:C2; simpl in *; [discriminate|].
    apply lookup_ge_None in C2.
    destruct (accepts h v1).
    + destruct (bin_number_of h v1) as [k1|]; simpl in *; [|discriminate].
      destruct (histogram_ h !! Z.to_nat k1) as [c1|]; simpl in *; [|discriminate].
      injection A1 as <-. simpl.
      rewrite (proj2 (lookup_ge_None _ _)) by (rewrite length_insert; exact C2).
      reflexivity.
    + injection A1 as <-. rewrite (proj2 (lookup_ge_None _ _) C2). reflexivity.
  - rewrite (addValue_after h h2 v2 v1 A2). rewrite addValue_unfold in A1, A2.
    destruct (accepts h v1); [|discriminate].
    destruct (bin_number_of h v1) as [k1|]; simpl in *; [|reflexivity].
    destruct (histogram_ h !! Z.to_nat k1) as [c1|] eqn:C1; simpl in *; [discriminate|].
    apply lookup_ge_None in C1.
    destruct (accepts h v2).
    + destruct (bin_number_of h v2) as [k2|]; simpl in *; [|discriminate].
      destruct (histogram_ h !! Z.to_nat k2) as [c2|]; simpl in *; [|discriminate].
      injection A2 as <-. simpl.
      rewrite (proj2 (lookup_ge_None _ _)) by (rewrite length_insert; exact C1).
      reflexivity.
    + injection A2 as <-. rewrite (proj2 (lookup_ge_None _ _) C1). reflexivity.
  - reflexivity.
Qed.

(** X5. Through construction, [setThresholds] and [addValue] a histogram
    keeps one counter per bin, and its range is either still the one of the
    constructor (0 to the number of bins, unit bin width) or one that
    [setThresholds] accepted: [threshold_min < threshold_max] with bin width
    [(max - min) / number_of_bins]. *)
Theorem range_invariant (k : Z) (h : FeatureHistogram) :
  reachable k h ->
  length (histogram_ h) = Z.to_nat (getNumberOfBins h)
  /\ (range_as_constructed h \/ range_as_set h).
Proof.
  unfold getNumberOfBins.
  induction 1 as [nb Hnb|k h min max Hr IH|k h h' value Hr IH Hadd].
  - split; [apply length_replicate|]. left. repeat split.
  - destruct IH as [IH1 IH2]. unfold setThresholds.
    destruct (F32.ltb min max) eqn:Hlt; simpl; [|auto].
    split; [exact IH1|]. right. split; [exact Hlt|reflexivity].
  - destruct IH as [IH1 IH2].
    apply addValue_config in Hadd as (E1 & E2 & E3 & E4 & E5).
    unfold range_as_constructed, range_as_set. rewrite E1, E2, E3, E4, E5. auto.
Qed.

Lemma range_invariant_witness :
  length (histogram_ (one_bin 1)) = Z.to_nat (getNumberOfBins (one_bin 1))
  /\ (range_as_constructed (one_bin 1) \/ range_as_set (one_bin 1)).
Proof.
  apply (range_invariant 1 (one_bin 1)).
  apply (reach_addValue 0 (one_bin 0) (one_bin 1) half); [|vm_compute; reflexivity].
  apply (reach_new 1). unfold size_t_ok. lia.
Defined.

(** X6. [setThresholds] never touches the counters, logs its error exactly
    when it rejects the pair, and leaves no trace of an earlier range: after
    a call that is accepted the histogram is the one a single call on the
    original would give, and after a rejected call it is unchanged. *)
Theorem setThresholds_composes (h : FeatureHistogram) (a b c d : float) :
  histogram_ (setThresholds h a b).1 = histogram_ h
  /\ getNumberOfElements (setThresholds h a b).1 = getNumberOfElements h
  /\ getNumberOfBins (setThresholds h a b).1 = getNumberOfBins h
  /\ ((setThresholds h a b).2 = [ErrThresholdOrder] <-> F32.ltb a b = false)
  /\ (F32.ltb c d = true ->
      (setThresholds (setThresholds h a b).1 c d).1 = (setThresholds h c d).1)
  /\ (F32.ltb c d = false ->
      (setThresholds (setThresholds h a b).1 c d).1 = (setThresholds h a b).1).
Proof.
  unfold getNumberOfElements, getNumberOfBins.
  destruct (setThresholds_bins h a b) as (E1 & E2 & E3).
  split; [exact E1|]. split; [exact E2|]. split; [exact E3|]. split; [|split].
  - unfold setThresholds. destruct (F32.ltb a b); simpl; split; congruence.
  - intros Hcd. unfold setThresholds at 1 3. rewrite Hcd. simpl.
    rewrite E1, E2, E3. reflexivity.
  - intros Hcd. unfold setThresholds at 1. rewrite Hcd. reflexivity.
Qed.

Lemma gray_level_table : forallb (gray_level_ok intensity_prototype) (seqZ 0 256) = true.
Proof. vm_compute. reflexivity. Qed.

Lemma gray_level_insertion (h : FeatureHistogram) (point_RGB : RGB.t) :
  same_config h intensity_prototype ->
  rgb_ok point_RGB ->
  let v := Z.quot (RGB.r point_RGB + RGB.g point_RGB + RGB.b point_RGB) 3 in
  0 <= v <= 255
  /\ (v = 0 \/ v = 255 -> addValue h (pixel_intensity point_RGB) = Some h)
  /\ (0 < v < 255 ->
      exists c, histogram_ h !! Z.to_nat v = Some c
        /\ addValue h (pixel_intensity point_RGB) = Some (bumped h v c)).
Proof.
  intros (E1 & E2 & E3 & E4) (Hr & Hg & Hb) v.
  assert (Hv : 0 <= v <= 255).
  { subst v. split; [apply Z.quot_pos; lia|].
    apply Z.quot_le_upper_bound; lia. }
  split; [exact Hv|].
  pose proof gray_level_table as Ht. rewrite forallb_forall in Ht.
  specialize (Ht v ltac:(apply list_elem_of_In, elem_of_seqZ; lia)).
  assert (Ha : accepts h (F32.of_Z v) = accepts intensity_prototype (F32.of_Z v))
    by (unfold accepts; rewrite E1, E2; reflexivity).
  assert (Hb' : bin_number_of h (F32.of_Z v) = bin_number_of intensity_prototype (F32.of_Z v))
    by (unfold bin_number_of; rewrite E1, E3; reflexivity).
  unfold pixel_intensity. fold v. rewrite addValue_unfold, Ha, Hb'.
  unfold gray_level_ok in Ht. split.
  - intros Hedge.
    destruct (Z.ltb_spec 0 v), (Z.ltb_spec v 255); simpl in Ht; try lia;
      apply negb_true_iff in Ht; rewrite Ht; reflexivity.
  - intros Hmid.
    destruct (Z.ltb_spec 0 v), (Z.ltb_spec v 255); simpl in Ht; try lia.
    apply andb_true_iff in Ht as [Hacc Hbin]. rewrite Hacc.
    destruct (bin_number_of intensity_prototype (F32.of_Z v)) as [k|]; [|discriminate].
    apply Z.eqb_eq in Hbin. subst k. simpl.
    destruct (lookup_lt_is_Some_2 (histogram_ h) (Z.to_nat v)) as [c Hc].
    { rewrite E4. change (length (histogram_ intensity_prototype)) with 256%nat. lia. }
    exists c. rewrite Hc. split; reflexivity.
Qed.

(** X7. In an intensity histogram as [compute] configures it (256 bins over
    (0, 255)) the intensity of any 8-bit pixel is handled without leaving the
    vector: the gray levels 0 and 255 are dropped, and a level [v] in between
    is counted in bin [v]. *)
Theorem intensity_insertion (h : FeatureHistogram) (point_RGB : RGB.t) :
  same_config h intensity_prototype ->
  rgb_ok point_RGB ->
  let v := Z.quot (RGB.r point_RGB + RGB.g point_RGB + RGB.b point_RGB) 3 in
  0 <= v <= 255
  /\ (v = 0 \/ v = 255 -> addValue h (pixel_intensity point_RGB) = Some h)
  /\ (0 < v < 255 ->
      exists c, histogram_ h !! Z.to_nat v = Some c
        /\ addValue h (pixel_intensity point_RGB) = Some (bumped h v c)).
Proof. exact (gray_level_insertion h point_RGB). Qed.

Lemma intensity_insertion_witness :
  let v := Z.quot (10 + 20 + 30) 3 in
  0 <= v <= 255
  /\ (v = 0 \/ v = 255 ->
      addValue intensity_prototype (pixel_intensity (RGB.mk 10 20 30))
        = Some intensity_prototype)
  /\ (0 < v < 255 ->
      exists c, histogram_ intensity_prototype !! Z.to_nat v = Some c
        /\ addValue intensity_prototype (pixel_intensity (RGB.mk 10 20 30))
           = Some (bumped intensity_prototype v c)).
Proof.
  apply (intensity_insertion intensity_prototype (RGB.mk 10 20 30)).
  - repeat split; reflexivity.
  - unfold rgb_ok. simpl. lia.
Defined.

Lemma setThresholds_composes_witness :
  (setThresholds (setThresholds three_bins F32.zero half).1 F32.zero F32.one).1
    = (setThresholds three_bins F32.zero F32.one).1
  /\ (setThresholds (setThresholds three_bins F32.zero half).1 F32.one F32.zero).1
     = (setThresholds three_bins F32.zero half).1.
Proof.
  pose proof (setThresholds_composes three_bins F32.zero half F32.zero F32.one)
    as (_ & _ & _ & _ & H1 & _).
  pose proof (setThresholds_composes three_bins F32.zero half F32.one F32.zero)
    as (_ & _ & _ & _ & _ & H2).
  split; [apply H1|apply H2]; reflexivity.
Defined.

(** * Further properties of the grid construction *)

Lemma ltb_leb (x y : float) : F32.ltb x y = true -> F32.leb x y = true.
Proof.
  unfold F32.ltb, F32.leb, SFltb, SFleb.
  destruct (SFcompare x y) as [[]|]; congruence.
Qed.

Lemma max_element_lt (l : list Z) : l <> [] -> (max_element l < length l)%nat.
Proof.
  intros Hne. destruct (max_element_spec l Hne) as (v & Hv & _).
  apply lookup_lt_Some in Hv. exact Hv.
Qed.

Section GridFacts.

Variable translateCoordinates : Z -> Z -> float -> PointXYZ.t.
Variable default_PointDEM : PointDEM.t.

Local Abbreviation compute := (compute translateCoordinates default_PointDEM).
Local Abbreviation accumulate := (accumulate translateCoordinates).
Local Abbreviation accumulate_pixel := (accumulate_pixel translateCoordinates).
Local Abbreviation reduce := (reduce translateCoordinates).
Local Abbreviation reduce_body := (reduce_body translateCoordinates).
Local Abbreviation dem_cell := (dem_cell translateCoordinates).
Local Abbreviation cell_point := (cell_point translateCoordinates).
Local Abbreviation fresh_cloud := (fresh_cloud default_PointDEM).

(** X8. With [resolution_column] zero, [compute] divides by zero while it
    derives the column step: the call does not return, whether or not an
    image is attached, and the missing-image error is never logged. *)
Theorem compute_zero_columns (b : DigitalElevationMapBuilder)
    (out : option (PointCloud PointDEM.t)) :
  getColumnResolution b = 0 -> compute b out = None.
Proof.
  unfold getColumnResolution. intros Hrc.
  rewrite (compute_unfold translateCoordinates default_PointDEM).
  unfold kColumnStep_of, size_t_div. rewrite Hrc. reflexivity.
Qed.

Lemma pixel_index_bound (b : DigitalElevationMapBuilder) :
  0 < getColumnResolution b ->
  0 < disparity_map_width_ (base b) < 2 ^ 64 ->
  getColumnResolution b * getDisparityResolution b < 2 ^ 64 ->
  exists ks,
    kColumnStep_of b = Some ks
    /\ 1 <= ks
    /\ forall column, 0 <= column < disparity_map_width_ (base b) ->
         exists ic, size_t_div column ks = Some ic
           /\ 0 <= ic < getColumnResolution b
           /\ forall ds d index_disparity,
                F32.to_size_t (F32.div (F32.sub d (disparity_threshold_min_ (base b))) ds)
                  = Some index_disparity ->
                index_disparity < getDisparityResolution b ->
                pixel_index b ks ds column d
                  = Some (ic + index_disparity * getColumnResolution b)
                /\ ic + index_disparity * getColumnResolution b
                   < getColumnResolution b * getDisparityResolution b.
Proof.
  unfold getColumnResolution, getDisparityResolution. intros Hrc Hw Hsize.
  set (rc := resolution_column_ b) in *. set (w := disparity_map_width_ (base b)) in *.
  rewrite (kColumnStep_of_Some b) by (fold rc; lia). fold rc w.
  rewrite (wrap64_small (w - 1)) by lia.
  assert (Hq : 0 <= (w - 1) / rc <= w - 1).
  { split; [apply Z.div_pos; lia|]. apply Z.div_le_upper_bound; nia. }
  rewrite wrap64_small by lia.
  exists ((w - 1) / rc + 1). split; [reflexivity|]. split; [lia|].
  intros column Hcol. unfold size_t_div.
  destruct (Z.eqb_spec ((w - 1) / rc + 1) 0) as [|_]; [lia|].
  exists (column / ((w - 1) / rc + 1)). split; [reflexivity|].
  assert (Hic : 0 <= column / ((w - 1) / rc + 1) < rc).
  { split; [apply Z.div_pos; lia|]. apply Z.div_lt_upper_bound; [lia|].
    pose proof (Z.div_mod (w - 1) rc ltac:(lia)).
    pose proof (Z.mod_pos_bound (w - 1) rc ltac:(lia)). nia. }
  split; [exact Hic|].
  intros ds d idd Hidd Hlt. pose proof (to_size_t_range _ _ Hidd) as Hr.
  unfold pixel_index, size_t_div.
  destruct (Z.eqb_spec ((w - 1) / rc + 1) 0) as [|_]; [lia|]. simpl.
  rewrite Hidd. simpl. fold rc.
  assert (column / ((w - 1) / rc + 1) + idd * rc < rc * resolution_disparity_ b) by nia.
  rewrite wrap64_small by nia. split; [reflexivity|assumption].
Qed.

(** X9. The column step is at least 1 and sends every column of the map to
    a column bucket below [resolution_column]; with a disparity bucket below
    [resolution_disparity] the flat index of the pixel is then below the
    number of histograms. *)
Theorem pixel_index_in_range (b : DigitalElevationMapBuilder) :
  0 < getColumnResolution b ->
  0 < disparity_map_width_ (base b) < 2 ^ 64 ->
  getColumnResolution b * getDisparityResolution b < 2 ^ 64 ->
  exists ks,
    kColumnStep_of b = Some ks
    /\ 1 <= ks
    /\ forall column, 0 <= column < disparity_map_width_ (base b) ->
         exists ic, size_t_div column ks = Some ic
           /\ 0 <= ic < getColumnResolution b
           /\ forall ds d index_disparity,
                F32.to_size_t (F32.div (F32.sub d (disparity_threshold_min_ (base b))) ds)
                  = Some index_disparity ->
                index_disparity < getDisparityResolution b ->
                pixel_index b ks ds column d
                  = Some (ic + index_disparity * getColumnResolution b)
                /\ ic + index_disparity * getColumnResolution b
                   < getColumnResolution b * getDisparityResolution b.
Proof. exact (pixel_index_bound b). Qed.

(** X10. A pixel whose disparity is at or below the lower threshold, at or
    above the upper one, or a NaN is skipped: the step returns both tables
    as they were, whatever the image holds at that pixel. *)
Theorem pixel_skipped (b : DigitalElevationMapBuilder) (img : PointCloud RGB.t)
    (ks : Z) (ds : float) (column row : Z) (hs : histograms) (d : float) :
  disparity_map_ (base b)
    !! Z.to_nat (wrap64 (column + row * disparity_map_width_ (base b))) = Some d ->
  F32.leb d (disparity_threshold_min_ (base b)) = true
  \/ F32.leb (disparity_threshold_max_ (base b)) d = true
  \/ F32.is_nan d = true ->
  accumulate_pixel b img ks ds column row hs = Some hs.
Proof.
  intros Hd Hout. unfold accumulate_pixel. rewrite Hd. simpl.
  destruct Hout as [H|[H|H]].
  - apply F32Facts.leb_not_ltb in H. rewrite H. reflexivity.
  - apply F32Facts.leb_not_ltb in H. rewrite H, andb_false_r. reflexivity.
  - destruct d; try discriminate. rewrite ltb_nan_r, andb_false_r. reflexivity.
Qed.

(** X11. What a returning pixel step did. Outside the window it changed
    nothing. Inside, it read the pixel of the image, and at the flat index of
    the pixel the height histogram received the height of the transformed
    point and the intensity histogram the pixel intensity; every histogram
    at another index, in either table, is as before, and no table changed
    its length. *)
Theorem pixel_effect (b : DigitalElevationMapBuilder) (img : PointCloud RGB.t)
    (ks : Z) (ds : float) (column row : Z) (hs hs' : histograms) :
  accumulate_pixel b img ks ds column row hs = Some hs' ->
  let pixel := Z.to_nat (wrap64 (column + row * disparity_map_width_ (base b))) in
  exists d,
    disparity_map_ (base b) !! pixel = Some d
    /\ length hs'.1 = length hs.1 /\ length hs'.2 = length hs.2
    /\ (in_window b d = false -> hs' = hs)
    /\ (in_window b d = true ->
        exists point_RGB index hh hh' ih ih',
          points img !! pixel = Some point_RGB
          /\ pixel_index b ks ds column d = Some index
          /\ hs.1 !! Z.to_nat index = Some hh
          /\ addValue hh (PointXYZ.y (translateCoordinates row column d)) = Some hh'
          /\ hs.2 !! Z.to_nat index = Some ih
          /\ addValue ih (pixel_intensity point_RGB) = Some ih'
          /\ hs'.1 !! Z.to_nat index = Some hh'
          /\ hs'.2 !! Z.to_nat index = Some ih'
          /\ forall j, j <> Z.to_nat index ->
               hs'.1 !! j = hs.1 !! j /\ hs'.2 !! j = hs.2 !! j).
Proof.
  intros Hstep pixel. unfold accumulate_pixel in Hstep. fold pixel in Hstep.
  destruct (disparity_map_ (base b) !! pixel) as [d|]; simpl in Hstep; [|discriminate].
  exists d. split; [reflexivity|]. fold (in_window b d) in Hstep.
  destruct (in_window b d).
  - destruct (points img !! pixel) as [rgb|]; simpl in Hstep; [|discriminate].
    destruct (pixel_index b ks ds column d) as [index|]; simpl in Hstep; [|discriminate].
    destruct (hs.1 !! Z.to_nat index) as [hh|] eqn:Hhh; simpl in Hstep; [|discriminate].
    destruct (addValue hh _) as [hh'|] eqn:Hadd; simpl in Hstep; [|discriminate].
    destruct (hs.2 !! Z.to_nat index) as [ih|] eqn:Hih; simpl in Hstep; [|discriminate].
    destruct (addValue ih _) as [ih'|] eqn:Hadd'; simpl in Hstep; [|discriminate].
    injection Hstep as <-. simpl. rewrite !length_insert.
    split; [reflexivity|]. split; [reflexivity|]. split; [discriminate|].
    intros _. exists rgb, index, hh, hh', ih, ih'.
    apply lookup_lt_Some in Hhh as Hl1. apply lookup_lt_Some in Hih as Hl2.
    repeat split; try reflexivity; try assumption.
    + apply list_lookup_insert_eq. exact Hl1.
    + apply list_lookup_insert_eq. exact Hl2.
    + apply list_lookup_insert_ne. congruence.
    + apply list_lookup_insert_ne. congruence.
  - injection Hstep as <-. repeat split; try reflexivity. discriminate.
Qed.

Lemma accumulate_keeps (P : histograms -> Prop) b img ks ds (hs hs' : histograms) :
  (forall column row u u', P u -> accumulate_pixel b img ks ds column row u = Some u' -> P u') ->
  P hs -> accumulate b img ks ds hs = Some hs' -> P hs'.
Proof.
  intros Hstep Hok Hacc. unfold accumulate in Hacc.
  destruct (Z.le_gt_cases 0 (disparity_map_width_ (base b))) as [Hw|Hw];
    [|rewrite for_range_nil in Hacc by lia; injection Hacc as <-; exact Hok].
  apply (for_range_partial (fun _ t => P t) _ _ _ _ Hw Hok) in Hacc; [exact Hacc|].
  intros column u u' _ Hu Hrow.
  destruct (Z.le_gt_cases 0 (disparity_map_height_ (base b))) as [Hh|Hh];
    [|rewrite for_range_nil in Hrow by lia; injection Hrow as <-; exact Hu].
  apply (for_range_partial (fun _ t => P t) _ _ _ _ Hh Hu) in Hrow; [exact Hrow|].
  intros row v v' _ Hv. apply Hstep. exact Hv.
Qed.

Lemma addValue_same_config (h h' p : FeatureHistogram) (value : float) :
  same_config h p -> addValue h value = Some h' -> same_config h' p.
Proof.
  intros (E1 & E2 & E3 & E4) Hadd.
  apply addValue_config in Hadd as (F1 & F2 & F3 & _ & F5).
  unfold same_config. rewrite F1, F2, F3, F5. auto.
Qed.

Lemma accumulate_pixel_config b img ks ds column row (hs hs' : histograms) :
  tables_config hs -> accumulate_pixel b img ks ds column row hs = Some hs' ->
  tables_config hs'.
Proof.
  intros [C1 C2]. unfold accumulate_pixel.
  destruct (disparity_map_ (base b) !! _) as [d|]; simpl; [|discriminate].
  destruct (_ && _); [|intros [= <-]; split; assumption].
  destruct (points img !! _) as [rgb|]; simpl; [|discriminate].
  destruct (pixel_index b ks ds column d) as [index|]; simpl; [|discriminate].
  destruct (hs.1 !! Z.to_nat index) as [hh|] eqn:Hhh; simpl; [|discriminate].
  destruct (addValue hh _) as [hh'|] eqn:Hadd; simpl; [|discriminate].
  destruct (hs.2 !! Z.to_nat index) as [ih|] eqn:Hih; simpl; [|discriminate].
  destruct (addValue ih _) as [ih'|] eqn:Hadd'; simpl; [|discriminate].
  intros [= <-]. split; simpl; apply Forall_insert; try assumption.
  - refine (addValue_same_config hh hh' _ _ _ Hadd).
    rewrite Forall_lookup in C1. apply (C1 _ _ Hhh).
  - refine (addValue_same_config ih ih' _ _ _ Hadd').
    rewrite Forall_lookup in C2. apply (C2 _ _ Hih).
Qed.

Lemma initial_histograms_config b : tables_config (initial_histograms b).
Proof.
  split; simpl; apply Forall_replicate; repeat split; reflexivity.
Qed.

(** X12. The accumulation pass of [compute] keeps its tables in shape:
    when it returns, both still hold [kNumberOfHistograms] histograms, every
    height histogram still has the thresholds, bin width and bin count of the
    200-bin prototype, every intensity histogram those of the 256-bin one,
    and all of them are well formed. *)
Theorem accumulate_keeps_tables (b : DigitalElevationMapBuilder) (img : PointCloud RGB.t)
    (ks : Z) (ds : float) (hs : histograms) :
  accumulate b img ks ds (initial_histograms b) = Some hs ->
  length hs.1 = Z.to_nat (wrap64 (getColumnResolution b * getDisparityResolution b))
  /\ length hs.2 = Z.to_nat (wrap64 (getColumnResolution b * getDisparityResolution b))
  /\ Forall (fun h => same_config h height_prototype /\ wf_hist h) hs.1
  /\ Forall (fun h => same_config h intensity_prototype /\ wf_hist h) hs.2.
Proof.
  unfold getColumnResolution, getDisparityResolution. intros Hacc.
  pose proof (accumulate_ok translateCoordinates _ _ _ _ _ _ _
                (initial_histograms_ok b) Hacc) as (L1 & L2 & W1 & W2).
  pose proof (accumulate_keeps tables_config b img ks ds _ _
                (fun column row u u' => accumulate_pixel_config b img ks ds column row u u')
                (initial_histograms_config b) Hacc) as [C1 C2].
  split; [exact L1|]. split; [exact L2|].
  rewrite !Forall_lookup in *. split; intros i h Hi; split; eauto.
Qed.

Lemma cloud_at_put_shape {PointT : Type} (c c' : PointCloud PointT) column row p :
  cloud_at_put c column row p = Some c' ->
  width c' = width c /\ height c' = height c /\ length (points c') = length (points c).
Proof.
  intros H. apply cloud_at_put_Some in H as (i & _ & _ & ->). simpl.
  rewrite length_insert. auto.
Qed.

Lemma reduce_shape b ks ds hs (cloud0 cloud : PointCloud PointDEM.t) :
  reduce b ks ds hs cloud0 = Some cloud ->
  width cloud = width cloud0 /\ height cloud = height cloud0
  /\ length (points cloud) = length (points cloud0).
Proof.
  set (P := fun c : PointCloud PointDEM.t =>
              width c = width cloud0 /\ height c = height cloud0
              /\ length (points c) = length (points cloud0)).
  assert (H0 : P cloud0) by (repeat split).
  intros Hred. unfold reduce in Hred.
  destruct (Z.le_gt_cases 0 (resolution_column_ b)) as [Hw|Hw];
    [|rewrite for_range_nil in Hred by lia; injection Hred as <-; exact H0].
  apply (for_range_partial (fun _ t => P t) _ _ _ _ Hw H0) in Hred; [exact Hred|].
  intros ic u u' _ Hu Hrow.
  destruct (Z.le_gt_cases 0 (resolution_disparity_ b)) as [Hh|Hh];
    [|rewrite for_range_nil in Hrow by lia; injection Hrow as <-; exact Hu].
  apply (for_range_partial (fun _ t => P t) _ _ _ _ Hh Hu) in Hrow; [exact Hrow|].
  intros id v v' _ (Hv1 & Hv2 & Hv3) Hbody. unfold reduce_body in Hbody.
  destruct (dem_cell b ks ds hs ic id) as [p|]; simpl in Hbody; [|discriminate].
  apply cloud_at_put_shape in Hbody as (E1 & E2 & E3).
  unfold P. rewrite E1, E2, E3. auto.
Qed.

(** X13. Whenever [compute] returns it has set the output pointer to a
    grid of [getColumnResolution] by [getDisparityResolution] cells, whatever
    the pointer held before; it logs the missing-image error when no image is
    attached and nothing otherwise. *)
Theorem compute_output_shape (b : DigitalElevationMapBuilder)
    (out o : option (PointCloud PointDEM.t)) (log : list diagnostic) :
  compute b out = Some (o, log) ->
  exists cloud,
    o = Some cloud
    /\ width cloud = getColumnResolution b
    /\ height cloud = getDisparityResolution b
    /\ length (points cloud)
       = Z.to_nat (getColumnResolution b * getDisparityResolution b)
    /\ log = match image_ (base b) with
             | None => [ErrImageNotAllocated]
             | Some _ => []
             end.
Proof.
  unfold getColumnResolution, getDisparityResolution. intros Hc.
  rewrite (compute_unfold translateCoordinates default_PointDEM) in Hc.
  destruct (kColumnStep_of b) as [ks|]; simpl in Hc; [|discriminate].
  destruct (image_ (base b)) as [img|].
  - destruct (accumulate b img ks _ _) as [hs|]; simpl in Hc; [|discriminate].
    destruct (reduce b ks _ hs _) as [cloud|] eqn:Hred; simpl in Hc; [|discriminate].
    injection Hc as <- <-. exists cloud. apply reduce_shape in Hred as (E1 & E2 & E3).
    rewrite E1, E2, E3. unfold fresh_cloud. simpl.
    rewrite length_replicate. repeat split.
  - injection Hc as <- <-. exists (fresh_cloud b). simpl. rewrite length_replicate.
    repeat split.
Qed.

Lemma compute_cells (b : DigitalElevationMapBuilder) (img : PointCloud RGB.t)
    (out : option (PointCloud PointDEM.t)) (cloud : PointCloud PointDEM.t)
    (log : list diagnostic) :
  image_ (base b) = Some img ->
  compute b out = Some (Some cloud, log) ->
  exists ks hs,
    kColumnStep_of b = Some ks
    /\ accumulate b img ks (kDisparityStep_of b) (initial_histograms b) = Some hs
    /\ forall ic id,
         0 <= ic < resolution_column_ b -> 0 <= id < resolution_disparity_ b ->
         exists p, dem_cell b ks (kDisparityStep_of b) hs ic id = Some p
                   /\ cloud_at cloud ic id = Some p.
Proof.
  intros Himg Hc. rewrite (compute_unfold translateCoordinates default_PointDEM) in Hc.
  destruct (kColumnStep_of b) as [ks|]; simpl in Hc; [|discriminate].
  rewrite Himg in Hc.
  destruct (accumulate b img ks _ _) as [hs|] eqn:Hacc; simpl in Hc; [|discriminate].
  destruct (reduce b ks _ hs _) as [cloud'|] eqn:Hred; simpl in Hc; [|discriminate].
  injection Hc as -> <-. exists ks, hs. split; [reflexivity|]. split; [exact Hacc|].
  intros ic id Hic Hid.
  pose proof (reduce_partial translateCoordinates b ks _ hs _ _ _ ltac:(lia)
                (fresh_cloud_inv translateCoordinates default_PointDEM b ks _ hs) Hred)
    as (_ & _ & _ & Hfilled & _).
  exact (Hfilled ic id Hic Hid).
Qed.

Lemma dem_cell_Some b ks ds (hs : histograms) ic id p :
  dem_cell b ks ds hs ic id = Some p ->
  exists hh,
    hs.1 !! cell_index b ic id = Some hh
    /\ PointDEM.x p = PointXYZ.x (cell_point b ks ds ic id)
    /\ PointDEM.z p = PointXYZ.z (cell_point b ks ds ic id)
    /\ (number_of_elements_ hh < min_points_in_cell_ b ->
        PointDEM.y p = F32.zero /\ PointDEM.intensity p = kIntensityMax
        /\ PointDEM.height_variance p = F32.minus_one
        /\ PointDEM.intensity_variance p = F32.minus_one)
    /\ (min_points_in_cell_ b <= number_of_elements_ hh ->
        exists ih,
          hs.2 !! cell_index b ic id = Some ih
          /\ PointDEM.y p = meanValue hh
          /\ variance hh (meanValue hh) = Some (PointDEM.height_variance p)
          /\ PointDEM.intensity p = meanValue ih
          /\ variance ih (meanValue ih) = Some (PointDEM.intensity_variance p)).
Proof.
  unfold dem_cell. fold (cell_index b ic id). fold (cell_point b ks ds ic id).
  destruct (hs.1 !! cell_index b ic id) as [hh|]; simpl; [|discriminate].
  unfold getNumberOfElements.
  destruct (Z.leb_spec (min_points_in_cell_ b) (number_of_elements_ hh)) as [Hge|Hlt].
  - destruct (variance hh (meanValue hh)) as [hv|] eqn:Hhv; simpl; [|discriminate].
    destruct (hs.2 !! cell_index b ic id) as [ih|]; simpl; [|discriminate].
    destruct (variance ih (meanValue ih)) as [iv|] eqn:Hiv; simpl; [|discriminate].
    intros [= <-]. exists hh. simpl. repeat split; try lia.
    intros _. exists ih. repeat split; assumption.
  - intros [= <-]. exists hh. simpl. repeat split; try lia.
Qed.

(** X14. What every cell of a grid computed from an image holds. Its x and
    z are those of the transform at row 0, column [ic * kColumnStep] and
    disparity [min + id * kDisparityStep]. If the height histogram of the
    cell accepted fewer than [getMinPointsInCell] samples the cell is
    y = 0.0, intensity = 255.0 with both variances -1.0; otherwise y and
    intensity are the [meanValue] of the height and of the intensity
    histogram and the variances are their [variance] about those values. *)
Theorem computed_cells (b : DigitalElevationMapBuilder) (img : PointCloud RGB.t)
    (out : option (PointCloud PointDEM.t)) (cloud : PointCloud PointDEM.t)
    (log : list diagnostic) :
  image_ (base b) = Some img ->
  compute b out = Some (Some cloud, log) ->
  exists ks hs,
    kColumnStep_of b = Some ks
    /\ accumulate b img ks (kDisparityStep_of b) (initial_histograms b) = Some hs
    /\ forall ic id,
         0 <= ic < getColumnResolution b -> 0 <= id < getDisparityResolution b ->
         exists cell hh,
           cloud_at cloud ic id = Some cell
           /\ hs.1 !! cell_index b ic id = Some hh
           /\ PointDEM.x cell = PointXYZ.x (cell_point b ks (kDisparityStep_of b) ic id)
           /\ PointDEM.z cell = PointXYZ.z (cell_point b ks (kDisparityStep_of b) ic id)
           /\ (getNumberOfElements hh < getMinPointsInCell b ->
               PointDEM.y cell = F32.zero /\ PointDEM.intensity cell = kIntensityMax
               /\ PointDEM.height_variance cell = F32.minus_one
               /\ PointDEM.intensity_variance cell = F32.minus_one)
           /\ (getMinPointsInCell b <= getNumberOfElements hh ->
               exists ih,
                 hs.2 !! cell_index b ic id = Some ih
                 /\ PointDEM.y cell = meanValue hh
                 /\ variance hh (meanValue hh) = Some (PointDEM.height_variance cell)
                 /\ PointDEM.intensity cell = meanValue ih
                 /\ variance ih (meanValue ih) = Some (PointDEM.intensity_variance cell)).
Proof.
  unfold getColumnResolution, getDisparityResolution, getMinPointsInCell,
    getNumberOfElements.
  intros Himg Hc. destruct (compute_cells b img out cloud log Himg Hc)
    as (ks & hs & Hks & Hacc & Hcells).
  exists ks, hs. split; [exact Hks|]. split; [exact Hacc|].
  intros ic id Hic Hid. destruct (Hcells ic id Hic Hid) as (p & Hp & Hat).
  destruct (dem_cell_Some _ _ _ _ _ _ _ Hp) as (hh & Hhh & Hx & Hz & Hlow & Hhigh).
  exists p, hh. auto 10.
Qed.

Lemma mode_in_range (h p : FeatureHistogram) :
  bins_in_range p = true -> same_config h p -> histogram_ p <> [] ->
  F32.leb (threshold_min_ p) (meanValue h) = true
  /\ F32.ltb (meanValue h) (threshold_max_ p) = true.
Proof.
  intros Hp Hc Hne. pose proof Hc as (E1 & E2 & _ & E4).
  assert (Hne' : histogram_ h <> []).
  { intros Hnil. apply Hne. apply length_zero_iff_nil. rewrite <- E4, Hnil. reflexivity. }
  pose proof (max_element_lt _ Hne') as Hlt.
  destruct (bins_in_range_lookup h p _ Hp Hc Hlt) as [H1 H2].
  rewrite <- E1, <- E2. split; assumption.
Qed.

Lemma variance_sentinel_or_not_negative (h : FeatureHistogram) (mean v : float) :
  wf_hist h -> variance h mean = Some v -> sentinel_or_not_negative v.
Proof.
  intros Hwf Hv. destruct (variance_cases h mean Hwf) as [H0 H1].
  destruct (Z.eq_dec (number_of_elements_ h) 0) as [Hn|Hn].
  - left. specialize (H0 Hn). congruence.
  - right. destruct (H1 Hn) as [E Hnn]. apply F32Facts.nonneg_not_lt_zero. congruence.
Qed.

(** X15. Every cell of a grid computed from an image is within the ranges
    of the two histograms: -0.5 <= y < 1.5 and 0 <= intensity <= 255, and
    each variance field is the sentinel -1.0 or a value that is not below
    zero. *)
Theorem computed_cells_in_range (b : DigitalElevationMapBuilder) (img : PointCloud RGB.t)
    (out : option (PointCloud PointDEM.t)) (cloud : PointCloud PointDEM.t)
    (log : list diagnostic) :
  image_ (base b) = Some img ->
  compute b out = Some (Some cloud, log) ->
  forall ic id,
    0 <= ic < getColumnResolution b -> 0 <= id < getDisparityResolution b ->
    exists cell,
      cloud_at cloud ic id = Some cell
      /\ F32.leb kHeightMin (PointDEM.y cell) = true
      /\ F32.ltb (PointDEM.y cell) kHeightMax = true
      /\ F32.leb kIntensityMin (PointDEM.intensity cell) = true
      /\ F32.leb (PointDEM.intensity cell) kIntensityMax = true
      /\ sentinel_or_not_negative (PointDEM.height_variance cell)
      /\ sentinel_or_not_negative (PointDEM.intensity_variance cell).
Proof.
  unfold getColumnResolution, getDisparityResolution.
  intros Himg Hc ic id Hic Hid.
  destruct (compute_cells b img out cloud log Himg Hc) as (ks & hs & Hks & Hacc & Hcells).
  destruct (Hcells ic id Hic Hid) as (p & Hp & Hat).
  exists p. split; [exact Hat|].
  pose proof (accumulate_ok translateCoordinates _ _ _ _ _ _ _
                (initial_histograms_ok b) Hacc) as (_ & _ & W1 & W2).
  pose proof (accumulate_keeps tables_config b img ks _ _ _
                (fun column row u u' => accumulate_pixel_config b img ks _ column row u u')
                (initial_histograms_config b) Hacc) as [C1 C2].
  rewrite Forall_lookup in W1, W2, C1, C2.
  destruct (dem_cell_Some _ _ _ _ _ _ _ Hp) as (hh & Hhh & _ & _ & Hlow & Hhigh).
  destruct (Z.lt_ge_cases (number_of_elements_ hh) (min_points_in_cell_ b)) as [Hlt|Hge].
  - destruct (Hlow Hlt) as (-> & -> & -> & ->).
    repeat split; try reflexivity; left; reflexivity.
  - destruct (Hhigh Hge) as (ih & Hih & -> & Hhv & -> & Hiv).
    destruct (mode_in_range hh height_prototype height_prototype_in_range
                (C1 _ _ Hhh) ltac:(discriminate)) as [Y1 Y2].
    destruct (mode_in_range ih intensity_prototype intensity_prototype_in_range
                (C2 _ _ Hih) ltac:(discriminate)) as [I1 I2].
    split; [exact Y1|]. split; [exact Y2|]. split; [exact I1|].
    split; [apply ltb_leb; exact I2|]. split.
    + apply (variance_sentinel_or_not_negative hh _ _ (W1 _ _ Hhh) Hhv).
    + apply (variance_sentinel_or_not_negative ih _ _ (W2 _ _ Hih) Hiv).
Qed.

Lemma forallb_seqZ (f : Z -> bool) (n i : Z) :
  forallb f (seqZ 0 n) = true -> 0 <= i < n -> f i = true.
Proof.
  intros Hf Hi. rewrite forallb_forall in Hf. apply Hf.
  apply list_elem_of_In, elem_of_seqZ. lia.
Qed.

Lemma accumulate_returns (I : histograms -> Prop) b img ks ds (hs : histograms) :
  (forall column row u,
     0 <= column < disparity_map_width_ (base b) ->
     0 <= row < disparity_map_height_ (base b) ->
     I u -> exists u', accumulate_pixel b img ks ds column row u = Some u' /\ I u') ->
  I hs -> exists hs', accumulate b img ks ds hs = Some hs' /\ I hs'.
Proof.
  intros Hstep H0. unfold accumulate.
  destruct (Z.le_gt_cases 0 (disparity_map_width_ (base b))) as [Hw|Hw];
    [|exists hs; split; [apply for_range_nil; lia|exact H0]].
  apply (for_range_total (fun _ t => I t) _ _ _ Hw H0).
  intros column u Hcol Hu.
  destruct (Z.le_gt_cases 0 (disparity_map_height_ (base b))) as [Hh|Hh];
    [|exists u; split; [apply for_range_nil; lia|exact Hu]].
  apply (for_range_total (fun _ t => I t) _ _ _ Hh Hu).
  intros row v Hrow Hv. apply Hstep; assumption.
Qed.

Lemma variance_returns (h : FeatureHistogram) (mean : float) :
  wf_hist h -> is_Some (variance h mean).
Proof.
  intros Hwf. destruct (variance_cases h mean Hwf) as [H0 H1].
  destruct (Z.eq_dec (number_of_elements_ h) 0) as [Hn|Hn].
  - rewrite (H0 Hn). eauto.
  - destruct (H1 Hn) as [-> _]. eauto.
Qed.

Lemma dem_cell_returns b ks ds (hs : histograms) ic id n :
  tables_ok n hs -> (cell_index b ic id < n)%nat -> is_Some (dem_cell b ks ds hs ic id).
Proof.
  intros (L1 & L2 & W1 & W2) Hlt. unfold dem_cell. fold (cell_index b ic id).
  destruct (lookup_lt_is_Some_2 hs.1 (cell_index b ic id) ltac:(lia)) as [hh Hhh].
  destruct (lookup_lt_is_Some_2 hs.2 (cell_index b ic id) ltac:(lia)) as [ih Hih].
  rewrite Hhh. simpl. destruct (_ <=? _); [|eauto].
  rewrite Forall_lookup in W1, W2.
  destruct (variance_returns hh (meanValue hh) (W1 _ _ Hhh)) as [hv ->]. simpl.
  rewrite Hih. simpl.
  destruct (variance_returns ih (meanValue ih) (W2 _ _ Hih)) as [iv ->]. simpl. eauto.
Qed.

Lemma cell_index_lt b ic id :
  0 < resolution_column_ b ->
  resolution_column_ b * resolution_disparity_ b < 2 ^ 64 ->
  0 <= ic < resolution_column_ b -> 0 <= id < resolution_disparity_ b ->
  (cell_index b ic id
   < Z.to_nat (wrap64 (resolution_column_ b * resolution_disparity_ b)))%nat.
Proof.
  intros Hrc Hsize Hic Hid. unfold cell_index. rewrite !wrap64_small by nia. nia.
Qed.

Lemma reduce_returns b ks ds (hs : histograms) :
  0 < resolution_column_ b -> 0 <= resolution_disparity_ b ->
  resolution_column_ b * resolution_disparity_ b < 2 ^ 64 ->
  tables_ok (Z.to_nat (wrap64 (resolution_column_ b * resolution_disparity_ b))) hs ->
  exists cloud,
    reduce b ks ds hs (fresh_cloud b) = Some cloud
    /\ forall ic id,
         0 <= ic < resolution_column_ b -> 0 <= id < resolution_disparity_ b ->
         exists p, dem_cell b ks ds hs ic id = Some p /\ cloud_at cloud ic id = Some p.
Proof.
  intros Hrc Hrd Hsize Hok.
  destruct (reduce_total translateCoordinates b ks ds hs
              (Z.to_nat (resolution_column_ b * resolution_disparity_ b)) (fresh_cloud b))
    as (cloud & Hred & _ & _ & _ & Hfilled & _).
  - lia.
  - exact Hrd.
  - lia.
  - intros ic id Hic Hid. apply (dem_cell_returns b ks ds hs ic id _ Hok).
    apply cell_index_lt; assumption.
  - apply fresh_cloud_inv.
  - exists cloud. split; [exact Hred|exact Hfilled].
Qed.

(** X16. When no pixel of the map passes the window test and at least one
    sample is required per cell, [compute] returns a grid in which every cell
    has y = 0.0, intensity = 255.0 and both variances -1.0: disparities at or
    above the upper threshold and NaN disparities count as background too. *)
Theorem compute_nothing_accepted (b : DigitalElevationMapBuilder) (img : PointCloud RGB.t)
    (out : option (PointCloud PointDEM.t)) :
  image_ (base b) = Some img ->
  1 <= getMinPointsInCell b ->
  0 < getColumnResolution b -> 0 <= getDisparityResolution b ->
  getColumnResolution b * getDisparityResolution b < 2 ^ 64 ->
  no_pixel_in_window b = true ->
  exists cloud,
    compute b out = Some (Some cloud, [])
    /\ forall ic id,
         0 <= ic < getColumnResolution b -> 0 <= id < getDisparityResolution b ->
         exists cell,
           cloud_at cloud ic id = Some cell
           /\ PointDEM.y cell = F32.zero
           /\ PointDEM.intensity cell = kIntensityMax
           /\ PointDEM.height_variance cell = F32.minus_one
           /\ PointDEM.intensity_variance cell = F32.minus_one.
Proof.
  unfold getMinPointsInCell, getColumnResolution, getDisparityResolution.
  intros Himg Hmin Hrc Hrd Hsize Hno.
  rewrite (compute_unfold translateCoordinates default_PointDEM).
  rewrite (kColumnStep_of_Some b) by lia. simpl. rewrite Himg.
  set (ks := wrap64 _). set (ds := kDisparityStep_of b).
  destruct (accumulate_returns (fun t => t = initial_histograms b) b img ks ds
              (initial_histograms b)) as (hs & Hacc & ->); [|reflexivity|].
  { intros column row u Hcol Hrow ->. exists (initial_histograms b). split; [|reflexivity].
    unfold no_pixel_in_window in Hno.
    pose proof (forallb_seqZ _ _ column Hno Hcol) as Hc. simpl in Hc.
    pose proof (forallb_seqZ _ _ row Hc Hrow) as Hr. simpl in Hr.
    unfold accumulate_pixel.
    destruct (disparity_map_ (base b) !! _) as [d|]; [|discriminate]. simpl.
    fold (in_window b d). apply negb_true_iff in Hr. rewrite Hr. reflexivity. }
  rewrite Hacc. simpl.
  destruct (reduce_returns b ks ds (initial_histograms b) Hrc Hrd Hsize
              (initial_histograms_ok b)) as (cloud & Hred & Hcells).
  rewrite Hred. simpl. exists cloud. split; [reflexivity|].
  intros ic id Hic Hid. destruct (Hcells ic id Hic Hid) as (p & Hp & Hat).
  exists p. split; [exact Hat|].
  destruct (dem_cell_Some _ _ _ _ _ _ _ Hp) as (hh & Hhh & _ & _ & Hlow & _).
  apply Hlow. unfold initial_histograms in Hhh. simpl in Hhh.
  apply lookup_replicate in Hhh as [-> _].
  change (number_of_elements_ height_prototype) with 0. lia.
Qed.

Lemma rgb_okb_ok (point_RGB : RGB.t) : rgb_okb point_RGB = true -> rgb_ok point_RGB.
Proof.
  unfold rgb_okb, rgb_ok. rewrite !andb_true_iff, !Z.leb_le. tauto.
Qed.

Lemma addValue_height_returns (hh : FeatureHistogram) (height : float) :
  same_config hh height_prototype -> height_safe height = true ->
  is_Some (addValue hh height).
Proof.
  intros (E1 & E2 & E3 & E4) Hsafe. rewrite addValue_unfold.
  assert (Ha : accepts hh height = accepts height_prototype height)
    by (unfold accepts; rewrite E1, E2; reflexivity).
  assert (Hb : bin_number_of hh height = bin_number_of height_prototype height)
    by (unfold bin_number_of; rewrite E1, E3; reflexivity).
  rewrite Ha, Hb. unfold height_safe in Hsafe.
  destruct (accepts height_prototype height); [|eauto]. simpl in Hsafe.
  destruct (bin_number_of height_prototype height) as [bin|] eqn:Hbin; [|discriminate].
  apply Z.ltb_lt in Hsafe. pose proof (to_size_t_range _ _ Hbin) as Hr. simpl.
  destruct (lookup_lt_is_Some_2 (histogram_ hh) (Z.to_nat bin)) as [c ->]; [|simpl; eauto].
  rewrite E4. change (length (histogram_ height_prototype)) with 200%nat. lia.
Qed.

Lemma addValue_intensity_returns (ih : FeatureHistogram) (point_RGB : RGB.t) :
  same_config ih intensity_prototype -> rgb_ok point_RGB ->
  is_Some (addValue ih (pixel_intensity point_RGB)).
Proof.
  intros Hc Hrgb. destruct (gray_level_insertion ih point_RGB Hc Hrgb) as (Hv & Hedge & Hmid).
  set (v := Z.quot _ 3) in *.
  destruct (Z.eq_dec v 0) as [H0|H0]; [rewrite Hedge by auto; eauto|].
  destruct (Z.eq_dec v 255) as [H1|H1]; [rewrite Hedge by auto; eauto|].
  destruct (Hmid ltac:(lia)) as (c & _ & ->). eauto.
Qed.

Lemma pixel_step_returns b img ks column row (hs : histograms) :
  0 < resolution_column_ b ->
  disparity_map_width_ (base b) < 2 ^ 64 ->
  resolution_column_ b * resolution_disparity_ b < 2 ^ 64 ->
  kColumnStep_of b = Some ks ->
  0 <= column < disparity_map_width_ (base b) ->
  pixel_safe translateCoordinates b img column row = true ->
  tables_ok (Z.to_nat (wrap64 (resolution_column_ b * resolution_disparity_ b))) hs ->
  tables_config hs ->
  is_Some (accumulate_pixel b img ks (kDisparityStep_of b) column row hs).
Proof.
  intros Hrc Hw Hsize Hks Hcol Hsafe (L1 & L2 & W1 & W2) (C1 & C2).
  unfold pixel_safe in Hsafe. unfold accumulate_pixel.
  destruct (disparity_map_ (base b) !! _) as [d|]; [|discriminate]. simpl.
  fold (in_window b d). destruct (in_window b d); [|eauto]. simpl in Hsafe.
  destruct (points img !! _) as [rgb|]; [|discriminate]. simpl.
  apply andb_true_iff in Hsafe as [Hsafe Hheight].
  apply andb_true_iff in Hsafe as [Hrgb Hidd].
  fold (kDisparityStep_of b) in Hidd.
  destruct (F32.to_size_t _) as [idd|] eqn:Hcast; [|discriminate].
  apply Z.ltb_lt in Hidd.
  destruct (pixel_index_bound b Hrc ltac:(lia) Hsize) as (ks' & Hks' & _ & Hbucket).
  unfold getColumnResolution, getDisparityResolution in Hbucket.
  assert (ks' = ks) by congruence. subst ks'.
  destruct (Hbucket column Hcol) as (ic & _ & Hic & Hindex).
  destruct (Hindex (kDisparityStep_of b) d idd Hcast Hidd) as [-> Hlt]. simpl.
  pose proof (to_size_t_range _ _ Hcast) as Hr.
  rewrite wrap64_small in L1, L2 by nia.
  destruct (lookup_lt_is_Some_2 hs.1 (Z.to_nat (ic + idd * resolution_column_ b))
              ltac:(nia)) as [hh Hhh].
  destruct (lookup_lt_is_Some_2 hs.2 (Z.to_nat (ic + idd * resolution_column_ b))
              ltac:(nia)) as [ih Hih].
  rewrite Hhh. simpl. rewrite Forall_lookup in C1, C2.
  destruct (addValue_height_returns hh _ (C1 _ _ Hhh) Hheight) as [hh' ->]. simpl.
  rewrite Hih. simpl.
  destruct (addValue_intensity_returns ih rgb (C2 _ _ Hih) (rgb_okb_ok _ Hrgb)) as [ih' Hih'].
  unfold pixel_intensity in Hih'. rewrite Hih'. simpl. eauto.
Qed.

(** X17. A sufficient condition for [compute] to return. With an image
    attached, [resolution_column] positive and every pixel of the map safe
    (its disparity can be read and, when it passes the window test, the image
    has the pixel with 8-bit channels, the disparity bucket is below
    [resolution_disparity] and the height is dropped by the height histogram
    or has a bin index below 200), no access leaves a vector: [compute]
    returns a grid and logs nothing. *)
Theorem compute_returns (b : DigitalElevationMapBuilder) (img : PointCloud RGB.t)
    (out : option (PointCloud PointDEM.t)) :
  image_ (base b) = Some img ->
  0 < getColumnResolution b -> 0 <= getDisparityResolution b ->
  getColumnResolution b * getDisparityResolution b < 2 ^ 64 ->
  disparity_map_width_ (base b) < 2 ^ 64 ->
  map_safe translateCoordinates b img = true ->
  exists cloud, compute b out = Some (Some cloud, []).
Proof.
  unfold getColumnResolution, getDisparityResolution.
  intros Himg Hrc Hrd Hsize Hw Hsafe.
  rewrite (compute_unfold translateCoordinates default_PointDEM).
  pose proof (kColumnStep_of_Some b ltac:(lia)) as Hks. rewrite Hks. simpl. rewrite Himg.
  set (ks := wrap64 _) in *.
  set (n := Z.to_nat (wrap64 (resolution_column_ b * resolution_disparity_ b))).
  destruct (accumulate_returns (fun t => tables_ok n t /\ tables_config t) b img ks
              (kDisparityStep_of b) (initial_histograms b)) as (hs & Hacc & Hok & _).
  - intros column row u Hcol Hrow [Hok Hcfg].
    unfold map_safe in Hsafe.
    pose proof (forallb_seqZ _ _ column Hsafe Hcol) as Hc. simpl in Hc.
    pose proof (forallb_seqZ _ _ row Hc Hrow) as Hp. simpl in Hp.
    destruct (pixel_step_returns b img ks column row u Hrc Hw Hsize Hks Hcol Hp Hok Hcfg)
      as [u' Hu'].
    exists u'. split; [exact Hu'|]. split.
    + apply (accumulate_pixel_ok translateCoordinates _ _ _ _ _ _ _ _ _ Hok Hu').
    + apply (accumulate_pixel_config _ _ _ _ _ _ _ _ Hcfg Hu').
  - split; [apply initial_histograms_ok|apply initial_histograms_config].
  - rewrite Hacc. simpl.
    destruct (reduce_returns b ks (kDisparityStep_of b) hs Hrc Hrd Hsize Hok)
      as (cloud & Hred & _).
    rewrite Hred. simpl. eauto.
Qed.

End GridFacts.

(** ** The properties on concrete runs *)

Lemma compute_zero_columns_witness : run (setResolution gray_builder 0 1) = None.
Proof.
  apply (compute_zero_columns example_translate example_default
           (setResolution gray_builder 0 1) None).
  reflexivity.
Defined.

Lemma pixel_index_in_range_witness :
  exists ks,
    kColumnStep_of gray_builder = Some ks
    /\ 1 <= ks
    /\ forall column, 0 <= column < disparity_map_width_ (base gray_builder) ->
         exists ic, size_t_div column ks = Some ic
           /\ 0 <= ic < getColumnResolution gray_builder
           /\ forall ds d index_disparity,
                F32.to_size_t
                  (F32.div (F32.sub d (disparity_threshold_min_ (base gray_builder))) ds)
                  = Some index_disparity ->
                index_disparity < getDisparityResolution gray_builder ->
                pixel_index gray_builder ks ds column d
                  = Some (ic + index_disparity * getColumnResolution gray_builder)
                /\ ic + index_disparity * getColumnResolution gray_builder
                   < getColumnResolution gray_builder * getDisparityResolution gray_builder.
Proof.
  apply (pixel_index_in_range gray_builder).
  - simpl. lia.
  - simpl. lia.
  - simpl. lia.
Defined.

Lemma pixel_skipped_witness :
  accumulate_pixel example_translate (example_builder F32.zero (Some gray_image))
    gray_image 2 F32.one 0 0 (initial_histograms gray_builder)
  = Some (initial_histograms gray_builder).
Proof.
  apply (pixel_skipped example_translate (example_builder F32.zero (Some gray_image))
           gray_image 2 F32.one 0 0 (initial_histograms gray_builder) F32.zero).
  - vm_compute. reflexivity.
  - left. reflexivity.
Defined.

Lemma pixel_effect_witness :
  let b := gray_builder in
  let pixel := Z.to_nat (wrap64 (0 + 0 * disparity_map_width_ (base b))) in
  exists d,
    disparity_map_ (base b) !! pixel = Some d
    /\ length gray_first_step.1 = length (initial_histograms b).1
    /\ length gray_first_step.2 = length (initial_histograms b).2
    /\ (in_window b d = false -> gray_first_step = initial_histograms b)
    /\ (in_window b d = true ->
        exists point_RGB index hh hh' ih ih',
          points gray_image !! pixel = Some point_RGB
          /\ pixel_index b 2 (kDisparityStep_of b) 0 d = Some index
          /\ (initial_histograms b).1 !! Z.to_nat index = Some hh
          /\ addValue hh (PointXYZ.y (example_translate 0 0 d)) = Some hh'
          /\ (initial_histograms b).2 !! Z.to_nat index = Some ih
          /\ addValue ih (pixel_intensity point_RGB) = Some ih'
          /\ gray_first_step.1 !! Z.to_nat index = Some hh'
          /\ gray_first_step.2 !! Z.to_nat index = Some ih'
          /\ forall j, j <> Z.to_nat index ->
               gray_first_step.1 !! j = (initial_histograms b).1 !! j
               /\ gray_first_step.2 !! j = (initial_histograms b).2 !! j).
Proof.
  intros b.
  apply (pixel_effect example_translate b gray_image 2 (kDisparityStep_of b) 0 0
           (initial_histograms b) gray_first_step).
  vm_compute. reflexivity.
Defined.

Lemma accumulate_keeps_tables_witness :
  length gray_tables.1
    = Z.to_nat (wrap64 (getColumnResolution gray_builder * getDisparityResolution gray_builder))
  /\ length gray_tables.2
     = Z.to_nat (wrap64 (getColumnResolution gray_builder * getDisparityResolution gray_builder))
  /\ Forall (fun h => same_config h height_prototype /\ wf_hist h) gray_tables.1
  /\ Forall (fun h => same_config h intensity_prototype /\ wf_hist h) gray_tables.2.
Proof.
  apply (accumulate_keeps_tables example_translate gray_builder gray_image 2
           (kDisparityStep_of gray_builder) gray_tables).
  vm_compute. reflexivity.
Defined.

Lemma compute_output_shape_witness :
  exists cloud,
    Some gray_cloud = Some cloud
    /\ width cloud = getColumnResolution gray_builder
    /\ height cloud = getDisparityResolution gray_builder
    /\ length (points cloud)
       = Z.to_nat (getColumnResolution gray_builder * getDisparityResolution gray_builder)
    /\ [] = match image_ (base gray_builder) with
            | None => [ErrImageNotAllocated]
            | Some _ => []
            end.
Proof.
  apply (compute_output_shape example_translate example_default gray_builder None
           (Some gray_cloud) []).
  vm_compute. reflexivity.
Defined.

Lemma computed_cells_witness :
  let b := gray_builder in
  exists ks hs,
    kColumnStep_of b = Some ks
    /\ accumulate example_translate b gray_image ks (kDisparityStep_of b)
         (initial_histograms b) = Some hs
    /\ forall ic id,
         0 <= ic < getColumnResolution b -> 0 <= id < getDisparityResolution b ->
         exists cell hh,
           cloud_at gray_cloud ic id = Some cell
           /\ hs.1 !! cell_index b ic id = Some hh
           /\ PointDEM.x cell
              = PointXYZ.x (cell_point example_translate b ks (kDisparityStep_of b) ic id)
           /\ PointDEM.z cell
              = PointXYZ.z (cell_point example_translate b ks (kDisparityStep_of b) ic id)
           /\ (getNumberOfElements hh < getMinPointsInCell b ->
               PointDEM.y cell = F32.zero /\ PointDEM.intensity cell = kIntensityMax
               /\ PointDEM.height_variance cell = F32.minus_one
               /\ PointDEM.intensity_variance cell = F32.minus_one)
           /\ (getMinPointsInCell b <= getNumberOfElements hh ->
               exists ih,
                 hs.2 !! cell_index b ic id = Some ih
                 /\ PointDEM.y cell = meanValue hh
                 /\ variance hh (meanValue hh) = Some (PointDEM.height_variance cell)
                 /\ PointDEM.intensity cell = meanValue ih
                 /\ variance ih (meanValue ih) = Some (PointDEM.intensity_variance cell)).
Proof.
  intros b.
  apply (computed_cells example_translate example_default b gray_image None gray_cloud []).
  - reflexivity.
  - vm_compute. reflexivity.
Defined.

Lemma computed_cells_in_range_witness :
  exists cell,
    cloud_at gray_cloud 1 0 = Some cell
    /\ F32.leb kHeightMin (PointDEM.y cell) = true
    /\ F32.ltb (PointDEM.y cell) kHeightMax = true
    /\ F32.leb kIntensityMin (PointDEM.intensity cell) = true
    /\ F32.leb (PointDEM.intensity cell) kIntensityMax = true
    /\ sentinel_or_not_negative (PointDEM.height_variance cell)
    /\ sentinel_or_not_negative (PointDEM.intensity_variance cell).
Proof.
  apply (computed_cells_in_range example_translate example_default gray_builder
           gray_image None gray_cloud [] eq_refl).
  - vm_compute. reflexivity.
  - simpl. lia.
  - simpl. lia.
Defined.

Lemma compute_nothing_accepted_witness :
  exists cloud,
    run (example_builder four (Some gray_image)) = Some (Some cloud, [])
    /\ forall ic id,
         0 <= ic < getColumnResolution (example_builder four (Some gray_image)) ->
         0 <= id < getDisparityResolution (example_builder four (Some gray_image)) ->
         exists cell,
           cloud_at cloud ic id = Some cell
           /\ PointDEM.y cell = F32.zero
           /\ PointDEM.intensity cell = kIntensityMax
           /\ PointDEM.height_variance cell = F32.minus_one
           /\ PointDEM.intensity_variance cell = F32.minus_one.
Proof.
  apply (compute_nothing_accepted example_translate example_default
           (example_builder four (Some gray_image)) gray_image None).
  - reflexivity.
  - simpl. lia.
  - simpl. lia.
  - simpl. lia.
  - simpl. lia.
  - vm_compute. reflexivity.
Defined.

Lemma compute_returns_witness : exists cloud, run gray_builder = Some (Some cloud, []).
Proof.
  apply (compute_returns example_translate example_default gray_builder gray_image None).
  - reflexivity.
  - simpl. lia.
  - simpl. lia.
  - simpl. lia.
  - simpl. lia.
  - vm_compute. reflexivity.
Defined.

(** * Insertion followed by the mode *)

Lemma first_max_bin_single (l : list Z) (i : nat) :
  Forall (fun c => c = 0) l -> (i < length l)%nat -> first_max_bin (<[i := 1]> l) i.
Proof.
  intros Hz Hi. rewrite Forall_lookup in Hz. exists 1. split; [|split].
  - apply list_lookup_insert_eq. exact Hi.
  - intros j w Hj. destruct (Nat.eq_dec i j) as [->|Hne].
    + rewrite list_lookup_insert_eq in Hj by exact Hi. injection Hj as <-. lia.
    + rewrite list_lookup_insert_ne in Hj by exact Hne. rewrite (Hz _ _ Hj). lia.
  - intros j w Hlt Hj. rewrite list_lookup_insert_ne in Hj by lia.
    rewrite (Hz _ _ Hj). lia.
Qed.

(** X18. Insertion and mode round trip: after one value is counted in a
    histogram whose bins were all zero, [meanValue] returns the value of the
    bin that took it, [step * float (bin) + threshold_min]. *)
Theorem meanValue_after_first_insertion (h : FeatureHistogram) (value : float) (bin : Z) :
  wf_hist h ->
  Forall (fun c => c = 0) (histogram_ h) ->
  accepts h value = true ->
  bin_number_of h value = Some bin ->
  bin < getNumberOfBins h ->
  exists h',
    addValue h value = Some h'
    /\ meanValue h'
       = F32.add (F32.mul (step_ h) (F32.of_Z bin)) (getThresholdMin h).
Proof.
  unfold getNumberOfBins, getThresholdMin. intros [W1 _ _ _] Hz Hacc Hbin Hlt.
  pose proof (to_size_t_range _ _ Hbin) as Hk.
  assert (Hi : (Z.to_nat bin < length (histogram_ h))%nat) by lia.
  destruct (lookup_lt_is_Some_2 _ _ Hi) as [c Hc].
  assert (c = 0) by (rewrite Forall_lookup in Hz; apply (Hz _ _ Hc)). subst c.
  exists (bumped h bin 0). split.
  - rewrite addValue_unfold, Hacc, Hbin. simpl. rewrite Hc. reflexivity.
  - unfold meanValue, bin_value, bumped. simpl.
    change (wrap32 (0 + 1)) with 1.
    assert (Hm : max_element (<[Z.to_nat bin := 1]> (histogram_ h)) = Z.to_nat bin).
    { apply (first_max_bin_unique (<[Z.to_nat bin := 1]> (histogram_ h))).
      - apply max_element_spec. intros Hnil. apply (f_equal length) in Hnil.
        rewrite length_insert in Hnil. simpl in Hnil. lia.
      - apply first_max_bin_single; assumption. }
    rewrite Hm, Z2Nat.id by lia. reflexivity.
Qed.

Lemma meanValue_after_first_insertion_witness :
  exists h',
    addValue three_bins one_and_a_half = Some h'
    /\ meanValue h'
       = F32.add (F32.mul (step_ three_bins) (F32.of_Z 1)) (getThresholdMin three_bins).
Proof.
  apply (meanValue_after_first_insertion three_bins one_and_a_half 1).
  - split; simpl.
    + reflexivity.
    + repeat constructor; vm_compute; congruence.
    + unfold size_t_ok. lia.
    + unfold size_t_ok. lia.
  - repeat constructor.
  - reflexivity.
  - reflexivity.
  - simpl. lia.
Defined.

(** ** The two variance fields are decided separately *)

(** With [min_points_in_cell] = 0, every height dropped and a gray image,
    the height histogram of cell (0, 0) is empty and its intensity histogram
    holds eight samples: the cell takes the valid branch, [height_variance] is
    the -1.0 that [variance] returns on an empty histogram, and
    [intensity_variance] is not -1.0. *)
Lemma variance_fields_differ :
  exists cloud cell hs hh ih,
    compute tall_translate example_default no_minimum_builder None
      = Some (Some cloud, [])
    /\ cloud_at cloud 0 0 = Some cell
    /\ accumulate tall_translate no_minimum_builder gray_image 2
         (kDisparityStep_of no_minimum_builder) (initial_histograms no_minimum_builder)
       = Some hs
    /\ hs.1 !! cell_index no_minimum_builder 0 0 = Some hh
    /\ hs.2 !! cell_index no_minimum_builder 0 0 = Some ih
    /\ getNumberOfElements hh = 0
    /\ getNumberOfElements ih = 8
    /\ PointDEM.height_variance cell = F32.minus_one
    /\ F32.eqb (PointDEM.intensity_variance cell) F32.minus_one = false.
Proof.
  destruct (compute tall_translate example_default no_minimum_builder None)
    as [[[cloud|] log]|] eqn:Hrun; try (vm_compute in Hrun; discriminate).
  destruct (cloud_at cloud 0 0) as [cell|] eqn:Hcell;
    [|vm_compute in Hrun; injection Hrun as <- <-; vm_compute in Hcell; discriminate].
  destruct (accumulate tall_translate no_minimum_builder gray_image 2
              (kDisparityStep_of no_minimum_builder)
              (initial_histograms no_minimum_builder)) as [hs|] eqn:Hacc;
    [|vm_compute in Hacc; discriminate].
  destruct (hs.1 !! cell_index no_minimum_builder 0 0) as [hh|] eqn:Hhh;
    [|vm_compute in Hacc; injection Hacc as <-; vm_compute in Hhh; discriminate].
  destruct (hs.2 !! cell_index no_minimum_builder 0 0) as [ih|] eqn:Hih;
    [|vm_compute in Hacc; injection Hacc as <-; vm_compute in Hih; discriminate].
  exists cloud, cell, hs, hh, ih.
  vm_compute in Hrun. injection Hrun as <- <-. vm_compute in Hcell. injection Hcell as <-.
  vm_compute in Hacc. injection Hacc as <-. vm_compute in Hhh. injection Hhh as <-.
  vm_compute in Hih. injection Hih as <-.
  repeat split; reflexivity.
Qed.
